(** * LightBurn auto-align: a shallow embedding of the alignment pipeline

    The development follows the Python sources module by module:

    - [ArucoAligner]         (aruco_align.py): correspondences, homography,
                             point and rectangle transforms, alignment data;
    - [DesignPlacer]         (design_warp.py): pixel -> mm through the inverse;
    - [DesignWarper]         (design_warp.py): export at physical size;
    - [LightBurnController]  (lightburn_udp.py): the UDP command interface.

    Numbers.  Python floats and the float32 arrays handed to OpenCV are
    modelled by exact rationals ([Q]); the two transcendental steps of
    [calculate_alignment_for_design] (arctan2 and the Euclidean norm) are
    taken in the real numbers.  Rounding error of the machine formats is
    therefore outside the model; [Binary64] re-runs the pixel-size
    computation in IEEE binary64 on concrete inputs.

    Exceptions are values: a computation returns [inl e] when the Python code
    raises [e] and [inr v] when it returns [v].  Console output ([print]) is
    not modelled. *)

From Stdlib Require Import ZArith QArith Qround Qabs Qminmax Qfield Lqa.
From Stdlib Require Import Reals Lra Ratan.
From Stdlib Require Import String Ascii List Lia SpecFloat.
From Stdlib Require Import Strings.Byte.
From stdpp Require Import base gmap list.
Import ListNotations.

(** ** Exceptions and the result type *)

Module Py.

(** The messages of the [ValueError]s the sources raise. *)
Inductive value_error : Type :=
| NeedAtLeast4Markers (found : nat)
    (* "Need at least 4 markers for accurate homography (found {n})" *)
| FailedToCalculateHomography   (* "Failed to calculate homography" *)
| HomographyNotCalculatedYet    (* "Homography not calculated yet" *)
| NoDesignLoaded                (* "No design loaded" *)
| UnsupportedFormat (fmt : string)  (* "Unsupported format: {format}" *)
| InvalidLiteralForInt (s : string). (* raised by the builtin int() *)

Inductive exn : Type :=
| ValueError (m : value_error)
| Cv2Error            (* cv2.error, raised inside OpenCV *)
| LinAlgError         (* numpy.linalg.LinAlgError("Singular matrix") *)
| AttributeError      (* attribute access on None *)
| IndexError
| UnicodeDecodeError
| OSError.

Definition result (A : Type) : Type := (exn + A)%type.

Definition ret {A} (a : A) : result A := inr a.
Definition raise {A} (e : exn) : result A := inl e.

Definition bind {A B} (c : result A) (k : A -> result B) : result B :=
  match c with
  | inl e => inl e
  | inr a => k a
  end.

(** The error classes of the specification, as predicates on what the
    code raises. *)
Definition InsufficientMarkersError (e : exn) : Prop :=
  exists n, e = ValueError (NeedAtLeast4Markers n).

Definition NoHomographyError (e : exn) : Prop :=
  e = ValueError HomographyNotCalculatedYet.

End Py.

Export Py.

Declare Scope py_scope.
Delimit Scope py_scope with py.
Notation "'let*' x ':=' c 'in' k" := (Py.bind c (fun x => k))
  (at level 10, x pattern, c at level 100, k at level 200) : py_scope.

(** ** Plane geometry over the rationals *)

Module Geometry.
Local Open Scope Q_scope.

Definition point : Type := (Q * Q)%type.

(** (x, y, width, height) *)
Definition rect : Type := (Q * Q * Q * Q)%type.

(** A 3x3 matrix, row by row. *)
Record mat3 : Type := Mat3 {
  m00 : Q; m01 : Q; m02 : Q;
  m10 : Q; m11 : Q; m12 : Q;
  m20 : Q; m21 : Q; m22 : Q
}.

Definition det (H : mat3) : Q :=
  m00 H * (m11 H * m22 H - m12 H * m21 H)
  - m01 H * (m10 H * m22 H - m12 H * m20 H)
  + m02 H * (m10 H * m21 H - m11 H * m20 H).

(** Homogeneous denominator of the image of (x, y). *)
Definition denom (H : mat3) (p : point) : Q :=
  m20 H * fst p + m21 H * snd p + m22 H.

Definition point_eq (p q : point) : Prop :=
  fst p == fst q /\ snd p == snd q.


End Geometry.

Export Geometry.

(** ** The library calls the sources make *)

Module Cv2.
Local Open Scope Q_scope.

(** One point through [cv2.perspectiveTransform]: (x, y) goes to
    (x'/w, y'/w) with (x', y', w) = m * (x, y, 1); OpenCV yields (0, 0)
    when the denominator w vanishes. *)
Definition project (m : mat3) (p : point) : point :=
  let x := fst p in
  let y := snd p in
  let w := m20 m * x + m21 m * y + m22 m in
  if Qeq_bool w 0 then (0, 0)
  else ((m00 m * x + m01 m * y + m02 m) / w,
        (m10 m * x + m11 m * y + m12 m) / w).

(** [cv2.perspectiveTransform(src, m)]: every point of the array is mapped
    on its own.  OpenCV rejects a matrix argument that is [None]. *)
Definition perspectiveTransform (src : list point) (m : option mat3)
  : result (list point) :=
  match m with
  | None => raise Cv2Error
  | Some H => ret (map (project H) src)
  end.

End Cv2.

Module Numpy.
Local Open Scope Q_scope.

(** [np.linalg.inv]: the inverse (here by the adjugate), or
    LinAlgError("Singular matrix"). *)
Definition linalg_inv (H : mat3) : result mat3 :=
  let d := det H in
  if Qeq_bool d 0 then raise LinAlgError
  else ret {|
    m00 := (m11 H * m22 H - m12 H * m21 H) / d;
    m01 := (m02 H * m21 H - m01 H * m22 H) / d;
    m02 := (m01 H * m12 H - m02 H * m11 H) / d;
    m10 := (m12 H * m20 H - m10 H * m22 H) / d;
    m11 := (m00 H * m22 H - m02 H * m20 H) / d;
    m12 := (m02 H * m10 H - m00 H * m12 H) / d;
    m20 := (m10 H * m21 H - m11 H * m20 H) / d;
    m21 := (m01 H * m20 H - m00 H * m21 H) / d;
    m22 := (m00 H * m11 H - m01 H * m10 H) / d
  |}.

(** [a[i]] on the first axis of an array. *)
Definition getitem {A} (a : list A) (i : nat) : result A :=
  match nth_error a i with
  | Some v => ret v
  | None => raise IndexError
  end.

(** [np.mean(corners, axis=0)] of a list of points. *)
Definition mean_axis0 (ps : list point) : point :=
  let n := inject_Z (Z.of_nat (length ps)) in
  (fold_right (fun p s => fst p + s) 0 ps / n,
   fold_right (fun p s => snd p + s) 0 ps / n).

(** [np.arctan2(y, x)] on real arguments: the angle of the vector (x, y),
    the quadrant chosen by the signs of both. *)
Definition arctan2 (y x : R) : R :=
  if Rlt_dec 0 x then atan (y / x)
  else if Rlt_dec x 0 then
    (if Rle_dec 0 y then atan (y / x) + PI else atan (y / x) - PI)%R
  else if Rlt_dec 0 y then (PI / 2)%R
  else if Rlt_dec y 0 then (- PI / 2)%R
  else 0%R.

(** [np.degrees] *)
Definition degrees (r : R) : R := (r * 180 / PI)%R.

(** [np.linalg.norm] of a 2-vector. *)
Definition linalg_norm (v : point) : R :=
  sqrt (Q2R (fst v * fst v + snd v * snd v)).

Definition sub (p q : point) : point := (fst p - fst q, snd p - snd q).

End Numpy.

(** ** aruco_align.py *)

Module ArucoAligner.
Local Open Scope Q_scope.
Local Open Scope py_scope.

Record marker_info : Type := {
  position_mm : point;
  corner : string
}.

(** The jig configuration as [json.load] returns it; [markers] keeps the
    order of the JSON object, its keys are the id strings. *)
Record jig_config_t : Type := {
  jig_name : string;
  board_size_mm : Q;
  marker_size_mm : Q;
  dictionary : option string;
  markers : list (string * marker_info)
}.

(** [image.shape[:2]] of the loaded snapshot. *)
Record image_shape : Type := { rows : Z; cols : Z }.

(** The fields of an [ArucoAligner] the operations below read or write. *)
Record t : Type := {
  jig_config : jig_config_t;
  image : option image_shape;
  detected_markers : gmap Z point;
  homography : option mat3
}.

Definition set_homography (self : t) (h : option mat3) : t :=
  {| jig_config := jig_config self;
     image := image self;
     detected_markers := detected_markers self;
     homography := h |}.

Section CalculateHomography.
(** The builtin [int] on a string, and
    [cv2.findHomography(src, dst, cv2.RANSAC, 5.0)], which answers
    [None] when it finds no model. *)
Variable py_int : string -> result Z.
Variable findHomography : list point -> list point -> option mat3.

(** The loop of [calculate_homography] over [markers.items()];
    [src] and [dst] are the two lists it appends to. *)
Fixpoint collect (items : list (string * marker_info))
    (detected : gmap Z point) (src dst : list point)
  : result (list point * list point) :=
  match items with
  | [] => ret (src, dst)
  | (marker_id_str, info) :: rest =>
      let* marker_id := py_int marker_id_str in
      match detected !! marker_id with
      | None => collect rest detected src dst
      | Some detected_pos =>
          collect rest detected
            (src ++ [position_mm info]) (dst ++ [detected_pos])
      end
  end.

(** The correspondence list as the specification words it: one pair
    (position in mm, detected centre) for every configured marker whose
    id is among the detected ones, in configuration order. *)
Fixpoint matched_pairs (items : list (string * marker_info))
    (detected : gmap Z point) : list (point * point) :=
  match items with
  | [] => []
  | (marker_id_str, info) :: rest =>
      match py_int marker_id_str with
      | inr marker_id =>
          match detected !! marker_id with
          | Some detected_pos =>
              (position_mm info, detected_pos)
                :: matched_pairs rest detected
          | None => matched_pairs rest detected
          end
      | inl _ => matched_pairs rest detected
      end
  end.

(** Every key of the marker table is an integer literal. *)
Definition keys_parse (items : list (string * marker_info)) : Prop :=
  forall k info, In (k, info) items -> exists z, py_int k = inr z.

Definition correspondences (self : t)
  : result (list point * list point) :=
  collect (markers (jig_config self)) (detected_markers self) [] [].

Definition calculate_homography (self : t) : result mat3 * t :=
  match correspondences self with
  | inl e => (inl e, self)
  | inr (src_points, dst_points) =>
      if (length src_points <? 4)%nat then
        (raise (ValueError (NeedAtLeast4Markers (length src_points))),
         self)
      else
        let h := findHomography src_points dst_points in
        let self' := set_homography self h in
        match h with
        | None => (raise (ValueError FailedToCalculateHomography), self')
        | Some H => (ret H, self')
        end
  end.

End CalculateHomography.

(** The builtin [int] on the strings made of decimal digits only, the form
    of the keys in the jig files; used to run the model on examples. *)
Definition digit (c : ascii) : option Z :=
  let n := nat_of_ascii c in
  if ((48 <=? n) && (n <=? 57))%nat then Some (Z.of_nat (n - 48)) else None.

Fixpoint digits (s : string) (acc : Z) : option Z :=
  match s with
  | EmptyString => Some acc
  | String c r =>
      match digit c with
      | Some d => digits r (10 * acc + d)%Z
      | None => None
      end
  end.

Definition int_of_decimal (s : string) : result Z :=
  match s with
  | EmptyString => raise (ValueError (InvalidLiteralForInt s))
  | _ =>
      match digits s 0 with
      | Some z => ret z
      | None => raise (ValueError (InvalidLiteralForInt s))
      end
  end.

Definition transform_point (self : t) (point_mm : point) : result point :=
  match homography self with
  | None => raise (ValueError HomographyNotCalculatedYet)
  | Some _ =>
      let* point_px :=
        Cv2.perspectiveTransform [point_mm] (homography self) in
      Numpy.getitem point_px 0
  end.

Definition transform_rect (self : t) (rect_mm : rect)
  : result (list point) :=
  let '(x, y, w, h) := rect_mm in
  let corners_mm := [(x, y); (x + w, y); (x + w, y + h); (x, y + h)] in
  let* corners_px :=
    Cv2.perspectiveTransform corners_mm (homography self) in
  ret corners_px.

Definition get_board_bounds_px (self : t) : result (list point) :=
  let board_size := board_size_mm (jig_config self) in
  transform_rect self (0, 0, board_size, board_size).

Record alignment : Type := {
  design_rect_mm : rect;
  center_px : point;
  corners_px : list point;
  angle_deg : R;
  size_px : R * R;
  image_size : Z * Z
}.

Definition calculate_alignment_for_design (self : t) (rect_mm : rect)
  : result alignment :=
  let* corners := transform_rect self rect_mm in
  let center := Numpy.mean_axis0 corners in
  let* bottom_left := Numpy.getitem corners 0 in
  let* bottom_right := Numpy.getitem corners 1 in
  let angle_rad :=
    Numpy.arctan2 (Q2R (snd bottom_right - snd bottom_left))
                  (Q2R (fst bottom_right - fst bottom_left)) in
  let angle := Numpy.degrees angle_rad in
  let width_px := Numpy.linalg_norm (Numpy.sub bottom_right bottom_left) in
  let* top_left := Numpy.getitem corners 3 in
  let height_px := Numpy.linalg_norm (Numpy.sub top_left bottom_left) in
  let* shape :=
    match image self with
    | None => raise AttributeError
    | Some s => ret s
    end in
  ret {| design_rect_mm := rect_mm;
         center_px := center;
         corners_px := corners;
         angle_deg := angle;
         size_px := (width_px, height_px);
         image_size := (cols shape, rows shape) |}.

(** The axis-aligned bounding box of a list of points, corners in the
    order bottom-left, bottom-right, top-right, top-left. *)
Definition bounding_box (ps : list point) : list point :=
  match ps with
  | [] => []
  | p :: r =>
      let xmin := fold_right (fun q m => Qmin (fst q) m) (fst p) r in
      let xmax := fold_right (fun q m => Qmax (fst q) m) (fst p) r in
      let ymin := fold_right (fun q m => Qmin (snd q) m) (snd p) r in
      let ymax := fold_right (fun q m => Qmax (snd q) m) (snd p) r in
      [(xmin, ymin); (xmax, ymin); (xmax, ymax); (xmin, ymax)]
  end.

End ArucoAligner.

(** ** design_warp.py: DesignPlacer *)

Module DesignPlacer.
Local Open Scope Q_scope.
Local Open Scope py_scope.

Record t : Type := {
  homography : option mat3;
  board_size_mm : Q
}.

(** The click-to-millimetre step of [place_design_interactive]:
    [cv2.perspectiveTransform(click_px, np.linalg.inv(self.homography))]
    and then [click_mm[0][0]]. *)
Definition click_to_mm (self : t) (click_px : point) : result point :=
  let* inv :=
    match homography self with
    | None => raise LinAlgError
    | Some H => Numpy.linalg_inv H
    end in
  let* click_mm := Cv2.perspectiveTransform [click_px] (Some inv) in
  Numpy.getitem click_mm 0.

End DesignPlacer.

(** ** design_warp.py: DesignWarper *)

Module DesignWarper.
Local Open Scope Q_scope.
Local Open Scope py_scope.

(** A numpy image: its shape and its pixel buffer. *)
Record image : Type := {
  height : Z;
  width : Z;
  channels : Z;
  buf : list Z
}.

(** Arrays live in a store and are named by their address, so that an
    in-place update of a buffer would be visible to every holder of it. *)
Definition loc : Type := nat.

Inductive artifact : Type :=
| PngFile (img : image) (dpi_tag : Q * Q)
| SvgFile (width_mm height_mm : Q) (embedded : image).

Record world : Type := {
  arrays : list image;
  disk : list (string * artifact)
}.

Definition alloc (w : world) (img : image) : loc * world :=
  (length (arrays w), {| arrays := arrays w ++ [img]; disk := disk w |}).

Definition write_file (w : world) (path : string) (a : artifact) : world :=
  {| arrays := arrays w; disk := (path, a) :: disk w |}.

Record t : Type := {
  alignment_data : ArucoAligner.alignment;
  dpi : Q;
  px_per_mm : Q;
  design_image : option loc;
  warped_design : option loc
}.

(** [DesignWarper(alignment_data, dpi)] *)
Definition init (alignment_data : ArucoAligner.alignment) (dpi : Q) : t :=
  {| alignment_data := alignment_data;
     dpi := dpi;
     px_per_mm := dpi / 25.4;
     design_image := None;
     warped_design := None |}.

Definition default_dpi : Q := 300.

(** The assignment [self.design_image = ...] that [load_design] and
    [create_design_from_text] end with. *)
Definition set_design_image (self : t) (l : loc) : t :=
  {| alignment_data := alignment_data self;
     dpi := dpi self;
     px_per_mm := px_per_mm self;
     design_image := Some l;
     warped_design := warped_design self |}.


(** The builtin [int] on a number: truncation toward zero. *)
Definition int (q : Q) : Z := Z.quot (Qnum q) (Zpos (Qden q)).

(** [str.lower] on the ASCII letters. *)
Definition lower_ascii (c : ascii) : ascii :=
  let n := nat_of_ascii c in
  if ((65 <=? n) && (n <=? 90))%nat then ascii_of_nat (n + 32) else c.

Fixpoint lower (s : string) : string :=
  match s with
  | EmptyString => EmptyString
  | String c r => String (lower_ascii c) (lower r)
  end.

Section Exporting.
(** The pixel work is OpenCV's: bilinear resampling to a given size
    ([cv2.resize] with INTER_LINEAR) and the channel swap of
    [cv2.cvtColor(_, COLOR_BGR2RGB)], both on buffers. *)
Variable inter_linear : image -> Z -> Z -> list Z.
Variable bgr2rgb : image -> list Z.

(** [cv2.resize(src, (w, h), interpolation=INTER_LINEAR)]: a new array of
    the requested size; an empty source or an empty target size is an
    OpenCV error. *)
Definition cv2_resize (w : world) (src : loc) (dsize : Z * Z)
  : result loc * world :=
  match arrays w !! src with
  | None => (raise Cv2Error, w)
  | Some img =>
      let '(width_px, height_px) := dsize in
      if (height img <=? 0)%Z || (width img <=? 0)%Z
         || (width_px <=? 0)%Z || (height_px <=? 0)%Z
      then (raise Cv2Error, w)
      else
        let out := {| height := height_px; width := width_px;
                      channels := channels img;
                      buf := inter_linear img width_px height_px |} in
        let '(l, w') := alloc w out in
        (ret l, w')
  end.

(** [cv2.cvtColor(src, cv2.COLOR_BGR2RGB)]: three or four channels in,
    three out, in a new array. *)
Definition cv2_cvtColor_BGR2RGB (w : world) (src : loc)
  : result loc * world :=
  match arrays w !! src with
  | None => (raise Cv2Error, w)
  | Some img =>
      if (channels img =? 3)%Z || (channels img =? 4)%Z then
        let out := {| height := height img; width := width img;
                      channels := 3; buf := bgr2rgb img |} in
        let '(l, w') := alloc w out in
        (ret l, w')
      else (raise Cv2Error, w)
  end.

(** [export_for_lightburn(output_path, format)].  The creation of the
    parent directory is not modelled. *)
Definition export_for_lightburn (self : t) (output_path : string)
    (format : string) (w : world) : result string * t * world :=
  match design_image self with
  | None => (raise (ValueError NoDesignLoaded), self, w)
  | Some design =>
      let '(_, _, width_mm, height_mm) :=
        ArucoAligner.design_rect_mm (alignment_data self) in
      let width_px := int (width_mm * px_per_mm self) in
      let height_px := int (height_mm * px_per_mm self) in
      match cv2_resize w design (width_px, height_px) with
      | (inl e, w1) => (inl e, self, w1)
      | (inr design_resized, w1) =>
          if String.eqb (lower format) "png" then
            match cv2_cvtColor_BGR2RGB w1 design_resized with
            | (inl e, w2) => (inl e, self, w2)
            | (inr rgb, w2) =>
                match arrays w2 !! rgb with
                | None => (raise Cv2Error, self, w2)
                | Some pil_image =>
                    (ret output_path, self,
                     write_file w2 output_path
                       (PngFile pil_image (dpi self, dpi self)))
                end
            end
          else if String.eqb (lower format) "svg" then
            match arrays w1 !! design_resized with
            | None => (raise Cv2Error, self, w1)
            | Some embedded =>
                (ret output_path, self,
                 write_file w1 output_path
                   (SvgFile width_mm height_mm embedded))
            end
          else (raise (ValueError (UnsupportedFormat format)), self, w1)
      end
  end.

End Exporting.

(** The raster inside an exported file. *)
Definition raster (a : artifact) : image :=
  match a with
  | PngFile img _ => img
  | SvgFile _ _ img => img
  end.

Definition pixel_size (a : artifact) : Z * Z :=
  (width (raster a), height (raster a)).

(** The pixel count a length in mm stands for, before any rounding. *)
Definition exact_px (mm dpi : Q) : Q := mm * (dpi / 25.4).

(** Physical size in mm recovered from a pixel count and a dpi. *)
Definition mm_of_px (n : Z) (dpi : Q) : Q := inject_Z n / dpi * 25.4.


End DesignWarper.

(** ** IEEE binary64, for concrete runs of the pixel-size computation *)

Module Binary64.
Local Open Scope Z_scope.

Definition prec : Z := 53.
Definition emax : Z := 1024.

(** A Python [int] converted to [float]. *)
Definition of_int (z : Z) : spec_float := binary_normalize prec emax z 0 false.

Definition fmul : spec_float -> spec_float -> spec_float := SFmul prec emax.
Definition fdiv : spec_float -> spec_float -> spec_float := SFdiv prec emax.

(** The literal [25.4]: the double nearest to 254/10. *)
Definition lit_25_4 : spec_float := fdiv (of_int 254) (of_int 10).

(** The builtin [int] on a [float]: truncation toward zero;
    infinities and NaN raise. *)
Definition int (f : spec_float) : option Z :=
  match f with
  | S754_zero _ => Some 0
  | S754_finite s m e =>
      let v := if 0 <=? e then Z.pos m * 2 ^ e else Z.pos m / 2 ^ (- e) in
      Some (if s then - v else v)
  | S754_infinity _ | S754_nan => None
  end.

(** [self.px_per_mm = dpi / 25.4] and [int(mm * self.px_per_mm)] for an
    integer dpi and an integer number of millimetres. *)
Definition px_per_mm (dpi : Z) : spec_float := fdiv (of_int dpi) lit_25_4.

Definition size_px (mm dpi : Z) : option Z :=
  int (fmul (of_int mm) (px_per_mm dpi)).

End Binary64.

(** ** lightburn_udp.py *)

Module LightBurnController.
Local Open Scope N_scope.

(** A Python [str]: its code points. *)
Definition str : Type := list N.

Definition is_continuation (c : N) : bool := (128 <=? c) && (c <=? 191).

(** [bytes.decode('utf-8')] (strict): [None] stands for
    UnicodeDecodeError.  Overlong forms, surrogates and code points above
    U+10FFFF are rejected. *)
Fixpoint utf8_decode (bs : list byte) : option str :=
  match bs with
  | [] => Some []
  | b0 :: r0 =>
      let c0 := Byte.to_N b0 in
      if c0 <? 128 then option_map (cons c0) (utf8_decode r0)
      else if (194 <=? c0) && (c0 <=? 223) then
        match r0 with
        | b1 :: r1 =>
            let c1 := Byte.to_N b1 in
            if is_continuation c1
            then option_map (cons ((c0 - 192) * 64 + (c1 - 128)))
                            (utf8_decode r1)
            else None
        | _ => None
        end
      else if (224 <=? c0) && (c0 <=? 239) then
        match r0 with
        | b1 :: b2 :: r2 =>
            let c1 := Byte.to_N b1 in
            let c2 := Byte.to_N b2 in
            let cp := (c0 - 224) * 4096 + (c1 - 128) * 64 + (c2 - 128) in
            if is_continuation c1 && is_continuation c2
               && (2048 <=? cp) && negb ((55296 <=? cp) && (cp <=? 57343))
            then option_map (cons cp) (utf8_decode r2)
            else None
        | _ => None
        end
      else if (240 <=? c0) && (c0 <=? 244) then
        match r0 with
        | b1 :: b2 :: b3 :: r3 =>
            let c1 := Byte.to_N b1 in
            let c2 := Byte.to_N b2 in
            let c3 := Byte.to_N b3 in
            let cp := (c0 - 240) * 262144 + (c1 - 128) * 4096
                      + (c2 - 128) * 64 + (c3 - 128) in
            if is_continuation c1 && is_continuation c2
               && is_continuation c3
               && (65536 <=? cp) && (cp <=? 1114111)
            then option_map (cons cp) (utf8_decode r3)
            else None
        | _ => None
        end
      else None
  end.

(** [str.isspace] on one character. *)
Definition isspace (c : N) : bool :=
  ((9 <=? c) && (c <=? 13)) || ((28 <=? c) && (c <=? 32))
  || (c =? 133) || (c =? 160) || (c =? 5760)
  || ((8192 <=? c) && (c <=? 8202))
  || (c =? 8232) || (c =? 8233) || (c =? 8239) || (c =? 8287)
  || (c =? 12288).

Fixpoint lstrip (s : str) : str :=
  match s with
  | [] => []
  | c :: r => if isspace c then lstrip r else s
  end.

(** [str.strip()] *)
Definition strip (s : str) : str := rev (lstrip (rev (lstrip s))).

Fixpoint startswith (s p : str) : bool :=
  match p, s with
  | [], _ => true
  | _ :: _, [] => false
  | a :: p', b :: s' => (a =? b) && startswith s' p'
  end.

(** [p in s] for strings: [p] occurs in [s] as a substring. *)
Fixpoint contains (p s : str) : bool :=
  startswith s p ||
  match s with
  | [] => false
  | _ :: s' => contains p s'
  end.

(** 'OK' *)
Definition OK : str := [79; 75].

Record t : Type := {
  host : string;
  port : Z;
  reply_port : Z;
  timeout : Q
}.

(** [LightBurnController()] *)
Definition init : t :=
  {| host := "127.0.0.1"; port := 19840; reply_port := 19841;
     timeout := 2%Q |}.

(** What [recvfrom(1024)] does within the timeout: hand back a datagram,
    raise [socket.timeout], or raise another [OSError]. *)
Inductive outcome : Type :=
| Reply (data : list byte)
| TimedOut
| SocketError.

(** The transport: the datagrams sent so far (oldest first) and what the
    next receive calls will meet; nothing scripted means silence. *)
Record network : Type := {
  sent : list (string * (string * Z));
  inbox : list outcome
}.

Definition sendto (net : network) (data : string) (addr : string * Z)
  : network :=
  {| sent := sent net ++ [(data, addr)]; inbox := inbox net |}.

Definition recvfrom (net : network) : outcome * network :=
  match inbox net with
  | [] => (TimedOut, net)
  | o :: rest => (o, {| sent := sent net; inbox := rest |})
  end.

Definition send_command (self : t) (command : string) (net : network)
  : result (option str) * network :=
  let net1 := sendto net command (host self, port self) in
  match recvfrom net1 with
  | (Reply data, net2) =>
      match utf8_decode data with
      | Some reply => (ret (Some (strip reply)), net2)
      | None => (raise UnicodeDecodeError, net2)
      end
  | (TimedOut, net2) => (ret None, net2)
  | (SocketError, net2) => (raise OSError, net2)
  end.

(** [reply is not None and 'OK' in reply] *)
Definition is_success (reply : option str) : bool :=
  match reply with
  | Some r => contains OK r
  | None => false
  end.

Definition ping (self : t) (net : network) : result bool * network :=
  match send_command self "PING" net with
  | (inr reply, net') => (ret (is_success reply), net')
  | (inl e, net') => (inl e, net')
  end.

Definition get_status (self : t) (net : network)
  : result (option str) * network :=
  send_command self "STATUS" net.

(** [Path.resolve] and [Path.exists] of the host file system. *)
Record filesystem : Type := {
  resolve : string -> string;
  exists_ : string -> bool
}.

Definition load_file (fs : filesystem) (self : t) (file_path : string)
    (force : bool) (net : network) : result bool * network :=
  let file_path := resolve fs file_path in
  if negb (exists_ fs file_path) then (ret false, net)
  else
    let file_uri := ("file://" ++ file_path)%string in
    let command :=
      if force then ("FORCELOAD:" ++ file_uri)%string
      else ("LOADFILE:" ++ file_uri)%string in
    match send_command self command net with
    | (inr reply, net') => (ret (is_success reply), net')
    | (inl e, net') => (inl e, net')
    end.

Definition start_job (self : t) (net : network) : result bool * network :=
  match send_command self "START" net with
  | (inr reply, net') => (ret (is_success reply), net')
  | (inl e, net') => (inl e, net')
  end.

Definition close_file (self : t) (force : bool) (net : network)
  : result bool * network :=
  let command := if force then "FORCECLOSE"%string else "CLOSE"%string in
  match send_command self command net with
  | (inr reply, net') => (ret (is_success reply), net')
  | (inl e, net') => (inl e, net')
  end.

(** What the next [recvfrom] will meet. *)
Definition next_outcome (net : network) : outcome := fst (recvfrom net).

(** The reply contract of a command: it returns [True] exactly when a
    reply arrived whose text contains 'OK'; silence is [False]; a reply that
    decodes as UTF-8 is [True] or [False] by that test; a reply that does not
    decode raises. *)
Definition ok_contract (op : network -> result bool * network) : Prop :=
  forall net,
    (fst (op net) = inr true <->
     exists data text,
       next_outcome net = Reply data
       /\ utf8_decode data = Some text
       /\ contains OK text = true)
    /\ (next_outcome net = TimedOut -> fst (op net) = inr false)
    /\ (forall data text,
          next_outcome net = Reply data ->
          utf8_decode data = Some text ->
          fst (op net) = inr (contains OK text))
    /\ (forall data,
          next_outcome net = Reply data ->
          utf8_decode data = None ->
          fst (op net) = inl UnicodeDecodeError).

End LightBurnController.

(** ** Concrete inputs *)

Module Examples.
Local Open Scope Q_scope.
Import ArucoAligner.

(** config/jigs/default.json of the test suite: a 200 mm board with the
    markers 0..3 at its corners. *)
Definition default_jig : jig_config_t :=
  {| jig_name := "default";
     board_size_mm := 200;
     marker_size_mm := 40;
     dictionary := Some "DICT_4X4_50"%string;
     markers :=
       [("0"%string, {| position_mm := (0, 0); corner := "bottom-left" |});
        ("1"%string, {| position_mm := (200, 0); corner := "bottom-right" |});
        ("2"%string, {| position_mm := (200, 200); corner := "top-right" |});
        ("3"%string, {| position_mm := (0, 200); corner := "top-left" |})] |}.

Definition hd_image : image_shape := {| rows := 1080; cols := 1920 |}.

(** An aligner right after construction and [load_image]. *)
Definition fresh_aligner : t :=
  {| jig_config := default_jig;
     image := Some hd_image;
     detected_markers := ∅;
     homography := None |}.

Definition with_homography (H : mat3) : t :=
  set_homography fresh_aligner (Some H).

(** x' = x + y, y' = y: a shear. *)
Definition shear : mat3 := Mat3 1 1 0  0 1 0  0 0 1.

(** A quarter turn, scaled by 3. *)
Definition quarter_turn : mat3 := Mat3 0 (-3) 600  3 0 0  0 0 1.


(** The four markers seen at scale 3.5 px/mm. *)
Definition all_detected : gmap Z point :=
  <[0%Z := (0, 0)]> (<[1%Z := (700, 0)]>
    (<[2%Z := (700, 700)]> (<[3%Z := (0, 700)]> ∅))).

(** Marker 2 hidden. *)
Definition three_detected : gmap Z point :=
  <[0%Z := (0, 0)]> (<[1%Z := (700, 0)]> (<[3%Z := (0, 700)]> ∅)).

(** A jig whose four markers sit on one vertical line: a well-formed file,
    but no homography fits such positions and [cv2.findHomography] answers
    [None] for them. *)
Definition collinear_jig : jig_config_t :=
  {| jig_name := "rail";
     board_size_mm := 200;
     marker_size_mm := 40;
     dictionary := Some "DICT_4X4_50"%string;
     markers :=
       [("0"%string, {| position_mm := (0, 0); corner := "a" |});
        ("1"%string, {| position_mm := (0, 50); corner := "b" |});
        ("2"%string, {| position_mm := (0, 100); corner := "c" |});
        ("3"%string, {| position_mm := (0, 150); corner := "d" |})] |}.

Definition collinear_aligner : t :=
  {| jig_config := collinear_jig;
     image := Some hd_image;
     detected_markers := all_detected;
     homography := None |}.

(** Aligners after [detect_markers]. *)
Definition three_markers_aligner : t :=
  {| jig_config := default_jig;
     image := Some hd_image;
     detected_markers := three_detected;
     homography := None |}.

Definition four_markers_aligner : t :=
  {| jig_config := default_jig;
     image := Some hd_image;
     detected_markers := all_detected;
     homography := None |}.

(** The placement tool over a homography, on the 200 mm board. *)
Definition placer (H : mat3) : DesignPlacer.t :=
  {| DesignPlacer.homography := Some H;
     DesignPlacer.board_size_mm := 200 |}.

(** test_design_export of test_alignment.py: a 100 x 80 mm design at
    300 dpi, its canvas already created. *)
Definition test_alignment : alignment :=
  {| design_rect_mm := (50, 50, 100, 80);
     center_px := (960, 540);
     corners_px := [(910, 580); (1010, 580); (1010, 500); (910, 500)];
     angle_deg := 0%R;
     size_px := (100%R, 80%R);
     image_size := (1920, 1080)%Z |}.

Definition text_canvas : DesignWarper.image :=
  {| DesignWarper.height := 944; DesignWarper.width := 1181;
     DesignWarper.channels := 3; DesignWarper.buf := [] |}.

Definition test_world : DesignWarper.world :=
  {| DesignWarper.arrays := [text_canvas]; DesignWarper.disk := [] |}.

Definition test_warper : DesignWarper.t :=
  DesignWarper.set_design_image
    (DesignWarper.init test_alignment DesignWarper.default_dpi) 0%nat.

(** Stand-ins for the pixel work of OpenCV. *)
Definition blank_resample (_ : DesignWarper.image) (_ _ : Z) : list Z := [].
Definition blank_swap (_ : DesignWarper.image) : list Z := [].

(** A transport on which nothing was sent yet and the given outcomes are
    pending. *)
Definition pending (os : list LightBurnController.outcome)
  : LightBurnController.network :=
  {| LightBurnController.sent := []; LightBurnController.inbox := os |}.

(** A file system with the single file /out/design.png; relative names
    resolve against /out. *)
Definition one_file : LightBurnController.filesystem :=
  {| LightBurnController.resolve :=
       fun p => if String.eqb p "design.png" then "/out/design.png"%string
                else p;
     LightBurnController.exists_ :=
       fun p => String.eqb p "/out/design.png" |}.

Definition scale_3_5 : mat3 := Mat3 (7 # 2) 0 0  0 (7 # 2) 0  0 0 1.

(** Solvers for the runs: one that finds the scale, one that finds no
    model. *)
Definition solver_scale (_ _ : list point) : option mat3 := Some scale_3_5.
Definition solver_none (_ _ : list point) : option mat3 := None.

End Examples.

(** ** lightburn_udp.py and align_tool.py: waiting, loading, starting *)

Module LightBurnFlow.
Import LightBurnController.
Local Open Scope Q_scope.

(** The loop of [wait_for_ready]; [elapsed] is its counter.  [fuel] bounds
    the number of turns looked at: [None] says the loop is still running
    after that many.  [time.sleep] is not modelled. *)
Fixpoint wait_loop (fuel : nat) (self : t) (max_wait poll_interval elapsed : Q)
    (net : network) : option (result bool * network) :=
  if Qle_bool max_wait elapsed then Some (ret false, net)
  else
    match fuel with
    | O => None
    | S fuel' =>
        match ping self net with
        | (inl e, net') => Some (inl e, net')
        | (inr true, net') => Some (ret true, net')
        | (inr false, net') =>
            wait_loop fuel' self max_wait poll_interval
              (elapsed + poll_interval) net'
        end
    end.

Definition wait_for_ready (fuel : nat) (self : t) (max_wait poll_interval : Q)
    (net : network) : option (result bool * network) :=
  wait_loop fuel self max_wait poll_interval 0 net.

(** The defaults [max_wait=10, poll_interval=0.5]. *)
Definition default_max_wait : Q := 10.
Definition default_poll_interval : Q := 1 # 2.

(** The number of turns the loop takes when no ping succeeds: the number of
    k >= 0 with elapsed + k * poll_interval < max_wait. *)
Definition polls (max_wait poll_interval elapsed : Q) : nat :=
  Z.to_nat (Qceiling ((max_wait - elapsed) / poll_interval)).

(** The module-level [load_and_start(file_path, wait_for_ready, auto_start)]. *)
Definition load_and_start (fuel : nat) (fs : filesystem) (file_path : string)
    (wait : bool) (auto_start : bool) (net : network)
  : option (result bool * network) :=
  let controller := init in
  match (if wait
         then wait_for_ready fuel controller default_max_wait
                default_poll_interval net
         else Some (ret true, net)) with
  | None => None
  | Some (inl e, net1) => Some (inl e, net1)
  | Some (inr false, net1) => Some (ret false, net1)
  | Some (inr true, net1) =>
      match load_file fs controller file_path true net1 with
      | (inl e, net2) => Some (inl e, net2)
      | (inr false, net2) => Some (ret false, net2)
      | (inr true, net2) =>
          if auto_start then
            match start_job controller net2 with
            | (inl e, net3) => Some (inl e, net3)
            | (inr false, net3) => Some (ret false, net3)
            | (inr true, net3) => Some (ret true, net3)
            end
          else Some (ret true, net2)
      end
  end.

(** [AlignmentWorkflow.send_to_lightburn(file_path, auto_start)] of
    align_tool.py. *)
Definition send_to_lightburn (fs : filesystem) (file_path : string)
    (auto_start : bool) (net : network) : result bool * network :=
  let controller := init in
  match ping controller net with
  | (inl e, net1) => (inl e, net1)
  | (inr false, net1) => (ret false, net1)
  | (inr true, net1) =>
      match load_file fs controller file_path true net1 with
      | (inl e, net2) => (inl e, net2)
      | (inr false, net2) => (ret false, net2)
      | (inr true, net2) =>
          if auto_start then
            match start_job controller net2 with
            | (inl e, net3) => (inl e, net3)
            | (inr _, net3) => (ret true, net3)
            end
          else (ret true, net2)
      end
  end.

(** The datagram a command makes for a controller. *)
Definition datagram (self : t) (command : string) : string * (string * Z) :=
  (command, (host self, port self)).

(** A datagram whose text decodes and contains 'OK'. *)
Definition acknowledges (data : list byte) : Prop :=
  exists text, utf8_decode data = Some text /\ contains OK text = true.

(** An outcome that makes a command answer [False]: silence, or a reply
    that decodes and does not contain 'OK'. *)
Definition declines (o : outcome) : Prop :=
  o = TimedOut \/
  exists data text,
    o = Reply data /\ utf8_decode data = Some text
    /\ contains OK text = false.

End LightBurnFlow.

(** ** Exceptions of the remaining operations *)

Module PyMore.

Inductive error : Type :=
| Earlier (e : exn)                  (* an exception listed in [Py.exn] *)
| NoMarkersDetected                  (* ValueError("No ArUco markers detected in image") *)
| CouldNotLoadImage (path : string)  (* ValueError("Could not load image: ...") *)
| CouldNotLoadDesign (path : string) (* ValueError("Could not load design: ...") *)
| NegativeDimensions                 (* numpy: "negative dimensions are not allowed" *)
| NotImplementedError                (* "SVG loading requires cairosvg. ..." *)
| UnboundLocalError.                 (* a local variable read before assignment *)

Definition res (A : Type) : Type := (error + A)%type.

Definition lift {A} (r : result A) : res A :=
  match r with
  | inl e => inl (Earlier e)
  | inr a => inr a
  end.

End PyMore.

Export PyMore.

(** ** aruco_align.py: detection and the whole run *)

Module Detection.
Import ArucoAligner.
Local Open Scope Q_scope.

(** What [detector.detectMarkers(gray)] hands back: for each marker found
    its four corner points ([corners[i][0]]) and, in the same order, the ids
    ([ids.flatten()]); [ids] is [None] when nothing was found. *)
Record detection : Type := {
  corners : list (list point);
  ids : option (list Z)
}.

Definition set_detected_markers (self : t) (m : gmap Z point) : t :=
  {| jig_config := jig_config self;
     image := image self;
     detected_markers := m;
     homography := homography self |}.

Definition set_image (self : t) (i : option image_shape) : t :=
  {| jig_config := jig_config self;
     image := i;
     detected_markers := detected_markers self;
     homography := homography self |}.

(** The loop of [detect_markers] from index [i] on. *)
Fixpoint record_centers (corners : list (list point)) (i : nat)
    (ids : list Z) (self : t) : result unit * t :=
  match ids with
  | [] => (ret tt, self)
  | marker_id :: rest =>
      match Numpy.getitem corners i with
      | inl e => (inl e, self)
      | inr corner_points =>
          let center := Numpy.mean_axis0 corner_points in
          record_centers corners (S i) rest
            (set_detected_markers self
               (<[marker_id := center]> (detected_markers self)))
      end
  end.

(** [detect_markers()], given what the detector finds in [self.image]. *)
Definition detect_markers (self : t) (found : detection)
  : res (gmap Z point) * t :=
  match image self with
  | None => (inl (Earlier Cv2Error), self)
  | Some _ =>
      match ids found with
      | None | Some [] => (inl NoMarkersDetected, self)
      | Some marker_ids =>
          match record_centers (corners found) 0 marker_ids
                  (set_detected_markers self ∅) with
          | (inl e, self') => (inl (Earlier e), self')
          | (inr _, self') => (inr (detected_markers self'), self')
          end
      end
  end.

Section Process.
(** Reading a snapshot and running the detector on it are the library's:
    [snapshot path] is [None] when [cv2.imread] cannot read the file, else
    the shape of the image and what [detectMarkers] finds in it. *)
Variable snapshot : string -> option (image_shape * detection).
Variable py_int : string -> result Z.
Variable findHomography : list point -> list point -> option mat3.

(** [load_image(image_path)]; undistortion keeps the shape. *)
Definition load_image (self : t) (image_path : string) : res unit * t :=
  match snapshot image_path with
  | None => (inl (CouldNotLoadImage image_path), set_image self None)
  | Some (shape, _) => (inr tt, set_image self (Some shape))
  end.

(** [process(image_path, design_rect_mm, visualize=False)]: the run without
    the visualisation, which draws on a copy of the image and writes a file
    after the alignment data were computed. *)
Definition process (self : t) (image_path : string)
    (design_rect_mm : option rect) : res (option alignment) * t :=
  match load_image self image_path with
  | (inl e, self1) => (inl e, self1)
  | (inr _, self1) =>
      let found :=
        match snapshot image_path with
        | Some (_, f) => f
        | None => {| corners := []; ids := None |}
        end in
      match detect_markers self1 found with
      | (inl e, self2) => (inl e, self2)
      | (inr _, self2) =>
          match calculate_homography py_int findHomography self2 with
          | (inl e, self3) => (inl (Earlier e), self3)
          | (inr _, self3) =>
              match design_rect_mm with
              | None => (inr None, self3)
              | Some r =>
                  match calculate_alignment_for_design self3 r with
                  | inl e => (inl (Earlier e), self3)
                  | inr data => (inr (Some data), self3)
                  end
              end
          end
      end
  end.

End Process.

(** The centre of the last marker with id [k] in a detection, if any. *)
Definition last_center (corners : list (list point)) (ids : list Z)
    (k : Z) (c : point) : Prop :=
  exists i pts,
    ids !! i = Some k /\ corners !! i = Some pts
    /\ c = Numpy.mean_axis0 pts
    /\ forall j, (i < j)%nat -> ids !! j <> Some k.

(** Homographies without perspective: the last row is (0, 0, h33). *)
Definition affine (H : mat3) : Prop :=
  m20 H == 0 /\ m21 H == 0 /\ ~ m22 H == 0.

(** Scaling by [sx], [sy] and shifting by ([tx], [ty]). *)
Definition scaling (sx sy tx ty : Q) : mat3 :=
  Mat3 sx 0 tx  0 sy ty  0 0 1.

End Detection.

(** ** design_warp.py: the placement loop *)

Module Placement.
Import DesignPlacer.
Local Open Scope Q_scope.
Local Open Scope py_scope.

(** [cv2.EVENT_LBUTTONDOWN] *)
Definition EVENT_LBUTTONDOWN : Z := 1.

Record mouse_event : Type := { event : Z; mouse_x : Z; mouse_y : Z }.

(** One turn of the loop as the window system drives it: the mouse events
    handed to the callback while [cv2.waitKey(1)] runs, and the code that
    call returns (-1 when no key was pressed). *)
Record tick : Type := { mouse : list mouse_event; key_code : Z }.

(** The callback installed by [cv2.setMouseCallback]. *)
Definition mouse_callback (selected_position : option (Z * Z))
    (ev : mouse_event) : option (Z * Z) :=
  if (event ev =? EVENT_LBUTTONDOWN)%Z
  then Some (mouse_x ev, mouse_y ev)
  else selected_position.

(** Truth value of [self.selected_position]: [None] is false, a pair is
    true whatever its numbers. *)
Definition truthy {A} (o : option A) : bool :=
  match o with
  | Some _ => true
  | None => false
  end.

(** How far a run got: it returned, it raised, or it is still in the loop
    after the turns given. *)
Inductive run (A : Type) : Type :=
| Returned (v : A)
| Raised (e : error)
| Running.
Arguments Returned {A} v.
Arguments Raised {A} e.
Arguments Running {A}.

(** The block under [if self.selected_position:], up to the drawing: the
    rectangle centred on the click, and its corners sent through the
    homography for the outline. *)
Definition rect_at (self : t) (design_size_mm : Q * Q) (pos : Z * Z)
  : result rect :=
  let click_px := (inject_Z (fst pos), inject_Z (snd pos)) in
  let* click_mm := click_to_mm self click_px in
  let '(x_mm, y_mm) := click_mm in
  let design_x := x_mm - fst design_size_mm / 2 in
  let design_y := y_mm - snd design_size_mm / 2 in
  let design_rect_mm :=
    (design_x, design_y, fst design_size_mm, snd design_size_mm) in
  let corners_mm :=
    [(design_x, design_y);
     (design_x + fst design_size_mm, design_y);
     (design_x + fst design_size_mm, design_y + snd design_size_mm);
     (design_x, design_y + snd design_size_mm)] in
  let* corners_px := Cv2.perspectiveTransform corners_mm (homography self) in
  ret design_rect_mm.

(** The [while True] loop; [selected_position] is the attribute the callback
    writes, [design_rect_mm] the local variable, [None] while unassigned. *)
Fixpoint loop (self : t) (design_size_mm : Q * Q) (ticks : list tick)
    (selected_position : option (Z * Z)) (design_rect_mm : option rect)
  : run (option rect) :=
  match ticks with
  | [] => Running
  | t :: rest =>
      match (match selected_position with
             | Some pos =>
                 match rect_at self design_size_mm pos with
                 | inl e => inl e
                 | inr r => inr (Some r)
                 end
             | None => inr design_rect_mm
             end) with
      | inl e => Raised (Earlier e)
      | inr design_rect_mm' =>
          let selected' := fold_left mouse_callback (mouse t)
                             selected_position in
          let key := Z.land (key_code t) 255 in
          if (key =? 27)%Z then Returned None
          else if (key =? 13)%Z && truthy selected' then
            match design_rect_mm' with
            | Some r => Returned (Some r)
            | None => Raised UnboundLocalError
            end
          else loop self design_size_mm rest selected' design_rect_mm'
      end
  end.

(** [place_design_interactive(camera_image, design_size_mm)] *)
Definition place_design_interactive (self : t) (design_size_mm : Q * Q)
    (ticks : list tick) : run (option rect) :=
  loop self design_size_mm ticks None None.

Definition is_click (ev : mouse_event) : bool :=
  (event ev =? EVENT_LBUTTONDOWN)%Z.

Definition is_esc (t : tick) : bool := (Z.land (key_code t) 255 =? 27)%Z.
Definition is_enter (t : tick) : bool := (Z.land (key_code t) 255 =? 13)%Z.

(** A turn in which the button went down, last at (x, y). *)
Definition click_tick (x y : Z) (key : Z) : tick :=
  {| mouse := [{| event := EVENT_LBUTTONDOWN; mouse_x := x; mouse_y := y |}];
     key_code := key |}.

End Placement.

(** ** design_warp.py: where a design comes from *)

Module DesignSources.
Import DesignWarper.
Local Open Scope Q_scope.

Definition clear_design_image (self : t) : t :=
  {| alignment_data := alignment_data self;
     dpi := dpi self;
     px_per_mm := px_per_mm self;
     design_image := None;
     warped_design := warped_design self |}.


Section Sources.
(** Text metrics and text drawing are OpenCV's: [cv2.getTextSize] gives
    ((width, height), baseline); [cv2.putText] draws into the array it is
    given, here the buffer afterwards.  [Path(p).suffix] is pathlib's, and
    [cv2.imread(p, cv2.IMREAD_UNCHANGED)] answers [None] for a file it cannot
    read. *)
Variable getTextSize : string -> Q -> Z -> (Z * Z) * Z.
Variable putText : image -> string -> Z * Z -> Q -> Z -> result (list Z).
Variable path_suffix : string -> string.
Variable imread_unchanged : string -> option image.



(** [load_design(design_path)] *)
Definition load_design (self : t) (design_path : string) (w : world)
  : res loc * t * world :=
  if String.eqb (lower (path_suffix design_path)) ".svg"
  then (inl NotImplementedError, self, w)
  else
    match imread_unchanged design_path with
    | None =>
        (inl (CouldNotLoadDesign design_path), clear_design_image self, w)
    | Some img =>
        let '(l, w1) := alloc w img in
        (inr l, set_design_image self l, w1)
    end.

End Sources.

End DesignSources.

(** ** Further concrete inputs *)

Module MoreExamples.
Local Open Scope Q_scope.

(** A camera that always delivers the 1920 x 1080 frame of the test suite,
    with the four corner markers of the 200 mm board seen at 3.5 px/mm
    (squares of 140 px around their centres). *)
Definition board_detection : Detection.detection :=
  {| Detection.corners :=
       [[(-70, -70); (70, -70); (70, 70); (-70, 70)];
        [(630, -70); (770, -70); (770, 70); (630, 70)];
        [(630, 630); (770, 630); (770, 770); (630, 770)];
        [(-70, 630); (70, 630); (70, 770); (-70, 770)]];
     Detection.ids := Some [0; 1; 2; 3]%Z |}.

Definition board_snapshot (_ : string)
  : option (ArucoAligner.image_shape * Detection.detection) :=
  Some (Examples.hd_image, board_detection).



(** A hairline: 0.01 mm wide, less than a pixel at 300 dpi. *)
Definition hairline_alignment : ArucoAligner.alignment :=
  {| ArucoAligner.design_rect_mm := (0, 0, 1 # 100, 5);
     ArucoAligner.center_px := (0, 0);
     ArucoAligner.corners_px := [(0, 0); (0, 0); (0, 0); (0, 0)];
     ArucoAligner.angle_deg := 0%R;
     ArucoAligner.size_px := (0%R, 0%R);
     ArucoAligner.image_size := (1920, 1080)%Z |}.

Definition hairline_warper : DesignWarper.t :=
  DesignWarper.set_design_image
    (DesignWarper.init hairline_alignment DesignWarper.default_dpi) 0%nat.

Definition empty_world : DesignWarper.world :=
  {| DesignWarper.arrays := []; DesignWarper.disk := [] |}.



(** A directory with one greyscale scan, 4 x 4 pixels. *)
Definition grey_scan : DesignWarper.image :=
  {| DesignWarper.height := 4; DesignWarper.width := 4;
     DesignWarper.channels := 1; DesignWarper.buf := repeat 128%Z 16 |}.

Definition suffix_of (p : string) : string :=
  if String.eqb p "logo.svg" then ".svg"%string else ".png"%string.

Definition read_scan (p : string) : option DesignWarper.image :=
  if String.eqb p "scan.png" then Some grey_scan else None.

End MoreExamples.

(** * Properties *)

(** ** The rectangle and point transforms *)

Section TransformFacts.
Import ArucoAligner.

Lemma transform_point_set (self : t) (H : mat3) (p : point) :
  homography self = Some H ->
  transform_point self p = inr (Cv2.project H p).
Proof.
  intros E. unfold transform_point. rewrite E. reflexivity.
Qed.

Lemma transform_point_unset (self : t) (p : point) :
  homography self = None ->
  transform_point self p = inl (ValueError HomographyNotCalculatedYet).
Proof.
  intros E. unfold transform_point. now rewrite E.
Qed.

Lemma transform_rect_set (self : t) (H : mat3) (x y w h : Q) :
  homography self = Some H ->
  transform_rect self (x, y, w, h) =
    inr [Cv2.project H (x, y); Cv2.project H (x + w, y);
         Cv2.project H (x + w, y + h); Cv2.project H (x, y + h)]%Q.
Proof.
  intros E. unfold transform_rect. rewrite E. reflexivity.
Qed.

Lemma transform_rect_unset (self : t) (r : rect) :
  homography self = None ->
  transform_rect self r = inl Cv2Error.
Proof.
  intros E. destruct r as [[[x y] w] h].
  unfold transform_rect. now rewrite E.
Qed.

End TransformFacts.

(** C5.  With a homography set, [transform_rect] on (x, y, w, h) returns the
    four corners (x,y), (x+w,y), (x+w,y+h), (x,y+h), each mapped as
    [transform_point] maps it, in that order (bottom-left, bottom-right,
    top-right, top-left).  The result is not the axis-aligned bounding box of
    those points: under a shear the two differ. *)
Theorem transform_rect_four_corners :
  (forall (self : ArucoAligner.t) (H : mat3) (x y w h : Q),
      ArucoAligner.homography self = Some H ->
      exists bl br tr tl : point,
        ArucoAligner.transform_point self (x, y) = inr bl /\
        ArucoAligner.transform_point self (x + w, y)%Q = inr br /\
        ArucoAligner.transform_point self (x + w, y + h)%Q = inr tr /\
        ArucoAligner.transform_point self (x, y + h)%Q = inr tl /\
        ArucoAligner.transform_rect self (x, y, w, h) = inr [bl; br; tr; tl])
  /\
  (exists corners : list point,
      ArucoAligner.transform_rect
        (Examples.with_homography Examples.shear) (0, 0, 1, 1)%Q
        = inr corners /\
      corners <> ArucoAligner.bounding_box corners).
Proof.
  split.
  - intros self H x y w h E.
    exists (Cv2.project H (x, y)), (Cv2.project H (x + w, y)%Q),
           (Cv2.project H (x + w, y + h)%Q), (Cv2.project H (x, y + h)%Q).
    rewrite !(transform_point_set self H) by exact E.
    rewrite (transform_rect_set self H) by exact E.
    repeat split; reflexivity.
  - eexists. split; [reflexivity|].
    vm_compute. discriminate.
Qed.

Lemma transform_rect_four_corners_witness :
  exists bl br tr tl : point,
    ArucoAligner.transform_point
      (Examples.with_homography Examples.quarter_turn) (75, 75)%Q = inr bl /\
    ArucoAligner.transform_point
      (Examples.with_homography Examples.quarter_turn) (75 + 50, 75)%Q
      = inr br /\
    ArucoAligner.transform_point
      (Examples.with_homography Examples.quarter_turn) (75 + 50, 75 + 50)%Q
      = inr tr /\
    ArucoAligner.transform_point
      (Examples.with_homography Examples.quarter_turn) (75, 75 + 50)%Q
      = inr tl /\
    ArucoAligner.transform_rect
      (Examples.with_homography Examples.quarter_turn) (75, 75, 50, 50)%Q
      = inr [bl; br; tr; tl].
Proof.
  apply (proj1 transform_rect_four_corners
           (Examples.with_homography Examples.quarter_turn)
           Examples.quarter_turn 75 75 50 50)%Q.
  reflexivity.
Defined.

(** C6.  Before a homography is set, [transform_point] raises the
    "Homography not calculated yet" error (NoHomographyError), but
    [transform_rect] has no such guard: it hands [None] to OpenCV and the
    failure that comes back is OpenCV's own. *)
Theorem transform_rect_unguarded :
  ArucoAligner.transform_point Examples.fresh_aligner (0, 0)%Q
    = inl (ValueError HomographyNotCalculatedYet)
  /\ ArucoAligner.transform_rect Examples.fresh_aligner (0, 0, 10, 10)%Q
    = inl Cv2Error
  /\ ~ NoHomographyError Cv2Error.
Proof.
  repeat split; discriminate.
Qed.

(** ** Correspondences and the homography *)

Section CorrespondenceFacts.
Import ArucoAligner.
Variable py_int : string -> result Z.
Variable findHomography : list point -> list point -> option mat3.

(** The loop appends the matched pairs, in order, to what it was given. *)
Lemma collect_matched items detected :
  keys_parse py_int items ->
  forall src dst,
    collect py_int items detected src dst =
      inr (src ++ map fst (matched_pairs py_int items detected),
           dst ++ map snd (matched_pairs py_int items detected)).
Proof.
  induction items as [|[k info] rest IH]; intros Hk src dst; simpl.
  - now rewrite !app_nil_r.
  - destruct (Hk k info (or_introl eq_refl)) as [z Hz].
    rewrite Hz. simpl.
    assert (Hrest : keys_parse py_int rest).
    { intros k' i' Hin. apply (Hk k' i'). now right. }
    destruct (detected !! z) as [d|].
    + rewrite (IH Hrest). simpl. now rewrite <- !app_assoc.
    + apply (IH Hrest).
Qed.

(** A loop that ran to its end parsed every key. *)
Lemma collect_returns items detected :
  forall src dst s d,
    collect py_int items detected src dst = inr (s, d) ->
    keys_parse py_int items.
Proof.
  induction items as [|[k info] rest IH]; intros src dst s d E.
  - intros k info [].
  - simpl in E. destruct (py_int k) as [e|z] eqn:Hz; [discriminate|].
    simpl in E.
    assert (Hrest : keys_parse py_int rest).
    { destruct (detected !! z); eapply IH; exact E. }
    intros k' i' [Heq|Hin].
    + inversion Heq; subst. eauto.
    + eapply Hrest; eauto.
Qed.

Lemma matched_pairs_In items detected s d :
  In (s, d) (matched_pairs py_int items detected) <->
  exists k info id,
    In (k, info) items /\ py_int k = inr id /\
    detected !! id = Some d /\ position_mm info = s.
Proof.
  induction items as [|[k info] rest IH]; simpl.
  - split; [intros [] | intros (? & ? & ? & [] & _)].
  - split.
    + destruct (py_int k) as [e|z] eqn:Hz;
        [|destruct (detected !! z) as [d'|] eqn:Hd].
      * intros Hin. apply IH in Hin as (k' & i' & id & ? & ? & ? & ?).
        exists k', i', id. auto.
      * intros [Heq|Hin].
        -- inversion Heq; subst. exists k, info, z. auto.
        -- apply IH in Hin as (k' & i' & id & ? & ? & ? & ?).
           exists k', i', id. auto.
      * intros Hin. apply IH in Hin as (k' & i' & id & ? & ? & ? & ?).
        exists k', i', id. auto.
    + intros (k' & i' & id & [Heq|Hin] & Hp & Hd & Hs).
      * inversion Heq; subst. rewrite Hp, Hd. now left.
      * assert (In (s, d) (matched_pairs py_int rest detected)).
        { apply IH. exists k', i', id. auto. }
        destruct (py_int k) as [e|z]; [assumption|].
        destruct (detected !! z); [now right | assumption].
Qed.

Lemma correspondences_matched (self : t) :
  keys_parse py_int (markers (jig_config self)) ->
  correspondences py_int self =
    inr (map fst (matched_pairs py_int (markers (jig_config self))
                    (detected_markers self)),
         map snd (matched_pairs py_int (markers (jig_config self))
                    (detected_markers self))).
Proof.
  intros Hk. unfold correspondences.
  now rewrite (collect_matched _ _ Hk).
Qed.

Lemma correspondences_lengths (self : t) src dst :
  correspondences py_int self = inr (src, dst) ->
  length dst = length src.
Proof.
  intros E.
  pose proof (collect_returns _ _ _ _ _ _ E) as Hk.
  rewrite (correspondences_matched self Hk) in E.
  inversion E. now rewrite !length_map.
Qed.

Lemma calculate_homography_short (self : t) src dst :
  correspondences py_int self = inr (src, dst) ->
  (length src < 4)%nat ->
  calculate_homography py_int findHomography self =
    (inl (ValueError (NeedAtLeast4Markers (length src))), self).
Proof.
  intros E Hlen. unfold calculate_homography. rewrite E.
  destruct (Nat.ltb_spec (length src) 4); [reflexivity | lia].
Qed.

Lemma calculate_homography_enough (self : t) src dst :
  correspondences py_int self = inr (src, dst) ->
  (4 <= length src)%nat ->
  calculate_homography py_int findHomography self =
    match findHomography src dst with
    | Some H => (inr H, set_homography self (Some H))
    | None => (inl (ValueError FailedToCalculateHomography),
               set_homography self None)
    end.
Proof.
  intros E Hlen. unfold calculate_homography. rewrite E.
  destruct (Nat.ltb_spec (length src) 4); [lia|].
  now destruct (findHomography src dst).
Qed.

End CorrespondenceFacts.

(** C2.  When the correspondence list has fewer than four pairs,
    [calculate_homography] raises the "Need at least 4 markers" error
    (InsufficientMarkersError) and stores no matrix; if it returns a matrix,
    at least four correspondences were handed to the solver. *)
Theorem calculate_homography_needs_four
    (py_int : string -> result Z)
    (findHomography : list point -> list point -> option mat3)
    (self : ArucoAligner.t) :
  (forall src dst,
      ArucoAligner.correspondences py_int self = inr (src, dst) ->
      (length src < 4)%nat ->
      exists e,
        ArucoAligner.calculate_homography py_int findHomography self
          = (inl e, self)
        /\ InsufficientMarkersError e)
  /\
  (forall H self',
      ArucoAligner.calculate_homography py_int findHomography self
        = (inr H, self') ->
      exists src dst,
        ArucoAligner.correspondences py_int self = inr (src, dst) /\
        (4 <= length src)%nat /\ length dst = length src /\
        findHomography src dst = Some H).
Proof.
  split.
  - intros src dst E Hlen.
    exists (ValueError (NeedAtLeast4Markers (length src))). split.
    + now apply calculate_homography_short with (dst := dst).
    + now exists (length src).
  - intros H self' E.
    destruct (ArucoAligner.correspondences py_int self) as [e|[src dst]] eqn:Ec.
    + unfold ArucoAligner.calculate_homography in E. rewrite Ec in E.
      discriminate.
    + exists src, dst.
      destruct (Nat.lt_ge_cases (length src) 4) as [Hlt|Hge].
      * rewrite (calculate_homography_short _ _ _ _ _ Ec Hlt) in E.
        discriminate.
      * rewrite (calculate_homography_enough _ _ _ _ _ Ec Hge) in E.
        repeat split; [assumption | | ].
        -- now apply correspondences_lengths with (py_int := py_int) (self := self).
        -- destruct (findHomography src dst); [|discriminate].
           now inversion E.
Qed.

Lemma calculate_homography_needs_four_witness :
  (exists e,
      ArucoAligner.calculate_homography ArucoAligner.int_of_decimal
        Examples.solver_scale Examples.three_markers_aligner
        = (inl e, Examples.three_markers_aligner)
      /\ InsufficientMarkersError e)
  /\
  (exists src dst,
      ArucoAligner.correspondences ArucoAligner.int_of_decimal
        Examples.four_markers_aligner = inr (src, dst) /\
      (4 <= length src)%nat /\ length dst = length src /\
      Examples.solver_scale src dst = Some Examples.scale_3_5).
Proof.
  split.
  - apply (proj1 (calculate_homography_needs_four ArucoAligner.int_of_decimal
                    Examples.solver_scale Examples.three_markers_aligner)
             [(0, 0); (200, 0); (0, 200)]%Q [(0, 0); (700, 0); (0, 700)]%Q).
    + vm_compute. reflexivity.
    + simpl. lia.
  - apply (proj2 (calculate_homography_needs_four ArucoAligner.int_of_decimal
                    Examples.solver_scale Examples.four_markers_aligner)
             Examples.scale_3_5
             (ArucoAligner.set_homography Examples.four_markers_aligner
                (Some Examples.scale_3_5))).
    vm_compute. reflexivity.
Defined.

(** C8, as stated, fails on its last clause.  On a jig with four collinear
    markers, all four detected, the list has four matched correspondences,
    the solver finds no model for them, and [calculate_homography] raises
    "Failed to calculate homography". *)
Lemma calculate_homography_fails_with_four_matched :
  exists src dst,
    ArucoAligner.correspondences ArucoAligner.int_of_decimal
      Examples.collinear_aligner = inr (src, dst)
    /\ length src = 4%nat
    /\ fst (ArucoAligner.calculate_homography ArucoAligner.int_of_decimal
              Examples.solver_none Examples.collinear_aligner)
       = inl (ValueError FailedToCalculateHomography)
    /\ ~ InsufficientMarkersError (ValueError FailedToCalculateHomography).
Proof.
  exists [(0, 0); (0, 50); (0, 100); (0, 150)]%Q,
         [(0, 0); (700, 0); (700, 700); (0, 700)]%Q.
  split; [vm_compute; reflexivity|].
  split; [reflexivity|].
  split; [vm_compute; reflexivity|].
  intros [n Hn]. discriminate.
Qed.

(** C8, amended.  For a marker table whose keys are integer literals, the
    correspondence list is exactly, and in configuration order, the pairs
    (configured position, detected centre) of the markers whose id is both
    configured and detected; an undetected marker is left out and is no
    error.  The insufficient-markers error is raised exactly when fewer than
    four pairs remain; with four or more, the pairs go to the solver and the
    call fails only if the solver returns no matrix. *)
Theorem correspondences_are_matched_markers
    (py_int : string -> result Z)
    (findHomography : list point -> list point -> option mat3)
    (self : ArucoAligner.t) :
  ArucoAligner.keys_parse py_int
    (ArucoAligner.markers (ArucoAligner.jig_config self)) ->
  let pairs :=
    ArucoAligner.matched_pairs py_int
      (ArucoAligner.markers (ArucoAligner.jig_config self))
      (ArucoAligner.detected_markers self) in
  ArucoAligner.correspondences py_int self
    = inr (map fst pairs, map snd pairs)
  /\ (forall s d,
        In (s, d) pairs <->
        exists k info id,
          In (k, info) (ArucoAligner.markers (ArucoAligner.jig_config self))
          /\ py_int k = inr id
          /\ ArucoAligner.detected_markers self !! id = Some d
          /\ ArucoAligner.position_mm info = s)
  /\ ((length pairs < 4)%nat <->
      exists e,
        fst (ArucoAligner.calculate_homography py_int findHomography self)
          = inl e
        /\ InsufficientMarkersError e)
  /\ ((4 <= length pairs)%nat ->
      ArucoAligner.calculate_homography py_int findHomography self =
        match findHomography (map fst pairs) (map snd pairs) with
        | Some H => (inr H, ArucoAligner.set_homography self (Some H))
        | None => (inl (ValueError FailedToCalculateHomography),
                   ArucoAligner.set_homography self None)
        end).
Proof.
  intros Hk pairs.
  pose proof (correspondences_matched py_int self Hk) as Ec.
  fold pairs in Ec.
  assert (Hlen : length (map fst pairs) = length pairs) by apply length_map.
  split; [exact Ec|].
  split; [intros s d; apply matched_pairs_In|].
  split.
  - split.
    + intros Hlt.
      exists (ValueError (NeedAtLeast4Markers (length (map fst pairs)))).
      rewrite (calculate_homography_short py_int findHomography self _ _ Ec)
        by lia.
      split; [reflexivity | now eexists].
    + intros (e & He & n & Hn). subst e.
      destruct (Nat.lt_ge_cases (length pairs) 4) as [Hlt|Hge]; [exact Hlt|].
      rewrite (calculate_homography_enough py_int findHomography self _ _ Ec)
        in He by lia.
      destruct (findHomography (map fst pairs) (map snd pairs));
        simpl in He; discriminate.
  - intros Hge.
    apply (calculate_homography_enough py_int findHomography self _ _ Ec).
    lia.
Qed.

Lemma int_of_decimal_default_keys :
  ArucoAligner.keys_parse ArucoAligner.int_of_decimal
    (ArucoAligner.markers Examples.default_jig).
Proof.
  intros k info Hin. simpl in Hin.
  destruct Hin as [E|[E|[E|[E|[]]]]]; inversion E; subst; eexists;
    vm_compute; reflexivity.
Qed.

Lemma correspondences_are_matched_markers_witness :
  ArucoAligner.correspondences ArucoAligner.int_of_decimal
    Examples.three_markers_aligner
  = inr ([(0, 0); (200, 0); (0, 200)]%Q, [(0, 0); (700, 0); (0, 700)]%Q).
Proof.
  exact (proj1 (correspondences_are_matched_markers
                  ArucoAligner.int_of_decimal Examples.solver_scale
                  Examples.three_markers_aligner
                  int_of_decimal_default_keys)).
Defined.

(** ** The round trip mm -> pixel -> mm *)

Section RoundTrip.
Local Open Scope Q_scope.

Lemma Qeq_bool_false (a b : Q) : ~ a == b -> Qeq_bool a b = false.
Proof.
  intros Hn. destruct (Qeq_bool a b) eqn:E; [|reflexivity].
  apply Qeq_bool_eq in E. contradiction.
Qed.

Lemma project_finite (H : mat3) (p : point) :
  ~ denom H p == 0 ->
  Cv2.project H p =
    ((m00 H * fst p + m01 H * snd p + m02 H) / denom H p,
     (m10 H * fst p + m11 H * snd p + m12 H) / denom H p).
Proof.
  intros Hw. unfold Cv2.project.
  change (m20 H * fst p + m21 H * snd p + m22 H) with (denom H p).
  now rewrite (Qeq_bool_false _ _ Hw).
Qed.

(** On the line the matrix sends to infinity OpenCV answers (0, 0). *)
Lemma project_horizon (H : mat3) (p : point) :
  denom H p == 0 -> Cv2.project H p = (0, 0).
Proof.
  intros Hw. unfold Cv2.project.
  change (m20 H * fst p + m21 H * snd p + m22 H) with (denom H p).
  now rewrite (Qeq_eq_bool _ _ Hw).
Qed.



End RoundTrip.




(** ** The rotation angle *)

Section Angle.
Local Open Scope R_scope.





(** A vector along the negative x axis has angle +180 degrees. *)
Lemma degrees_arctan2_negative_x_axis (x : R) :
  x < 0 -> Numpy.degrees (Numpy.arctan2 0 x) = 180.
Proof.
  intros Hx. pose proof PI_RGT_0 as Hpi.
  unfold Numpy.arctan2, Numpy.degrees.
  destruct (Rlt_dec 0 x); [lra|].
  destruct (Rlt_dec x 0); [|lra].
  destruct (Rle_dec 0 0); [|lra].
  replace (0 / x) with 0 by (field; lra).
  rewrite atan_0. field. lra.
Qed.

End Angle.



(** ** Export at physical size *)

Section ExportFacts.
Import DesignWarper.
Variable inter_linear : image -> Z -> Z -> list Z.
Variable bgr2rgb : image -> list Z.

Lemma cv2_resize_returns w src pw ph l w1 :
  cv2_resize inter_linear w src (pw, ph) = (inr l, w1) ->
  exists img out,
    arrays w !! src = Some img
    /\ (0 < pw)%Z /\ (0 < ph)%Z
    /\ width out = pw /\ height out = ph /\ channels out = channels img
    /\ l = length (arrays w)
    /\ arrays w1 = arrays w ++ [out] /\ disk w1 = disk w.
Proof.
  unfold cv2_resize. intros E.
  destruct (arrays w !! src) as [img|]; [|discriminate].
  destruct ((height img <=? 0)%Z || (width img <=? 0)%Z
            || (pw <=? 0)%Z || (ph <=? 0)%Z) eqn:G; [discriminate|].
  apply orb_false_elim in G as [G Gh].
  apply orb_false_elim in G as [G Gw].
  apply Z.leb_gt in Gh, Gw.
  unfold alloc in E. inversion E; subst.
  exists img, {| height := ph; width := pw; channels := channels img;
                 buf := inter_linear img pw ph |}.
  simpl. repeat split; auto.
Qed.

Lemma cv2_resize_frame w src dsize r w1 :
  cv2_resize inter_linear w src dsize = (r, w1) ->
  disk w1 = disk w /\ exists new, arrays w1 = arrays w ++ new.
Proof.
  unfold cv2_resize. intros E. destruct dsize as [pw ph].
  destruct (arrays w !! src) as [img|].
  - destruct ((height img <=? 0)%Z || (width img <=? 0)%Z
              || (pw <=? 0)%Z || (ph <=? 0)%Z).
    + inversion E; subst. split; [reflexivity|]. exists []. now rewrite app_nil_r.
    + unfold alloc in E. inversion E; subst. simpl. eauto.
  - inversion E; subst. split; [reflexivity|]. exists []. now rewrite app_nil_r.
Qed.

Lemma cv2_cvtColor_returns w src l w1 :
  cv2_cvtColor_BGR2RGB bgr2rgb w src = (inr l, w1) ->
  exists img out,
    arrays w !! src = Some img
    /\ width out = width img /\ height out = height img
    /\ l = length (arrays w)
    /\ arrays w1 = arrays w ++ [out] /\ disk w1 = disk w.
Proof.
  unfold cv2_cvtColor_BGR2RGB. intros E.
  destruct (arrays w !! src) as [img|]; [|discriminate].
  destruct ((channels img =? 3)%Z || (channels img =? 4)%Z); [|discriminate].
  unfold alloc in E. inversion E; subst.
  exists img, {| height := height img; width := width img; channels := 3;
                 buf := bgr2rgb img |}.
  simpl. repeat split; auto.
Qed.

Lemma cv2_cvtColor_frame w src r w1 :
  cv2_cvtColor_BGR2RGB bgr2rgb w src = (r, w1) ->
  disk w1 = disk w /\ exists new, arrays w1 = arrays w ++ new.
Proof.
  unfold cv2_cvtColor_BGR2RGB. intros E.
  destruct (arrays w !! src) as [img|].
  - destruct ((channels img =? 3)%Z || (channels img =? 4)%Z).
    + unfold alloc in E. inversion E; subst. simpl. eauto.
    + inversion E; subst. split; [reflexivity|]. exists []. now rewrite app_nil_r.
  - inversion E; subst. split; [reflexivity|]. exists []. now rewrite app_nil_r.
Qed.

(** Whatever the outcome, the warper is handed back as it was, the arrays
    already in the store are kept, and at most one file is written. *)
Lemma export_frame self path fmt w r self' w' :
  export_for_lightburn inter_linear bgr2rgb self path fmt w = (r, self', w') ->
  self' = self
  /\ (exists new, arrays w' = arrays w ++ new)
  /\ (disk w' = disk w \/ exists a, disk w' = (path, a) :: disk w).
Proof.
  unfold export_for_lightburn. intros E.
  destruct (design_image self) as [design|].
  2:{ inversion E; subst. split; [reflexivity|]. split; [exists []; now rewrite app_nil_r | now left]. }
  destruct (ArucoAligner.design_rect_mm (alignment_data self)) as [[[x y] wmm] hmm].
  destruct (cv2_resize inter_linear w design _) as [[e|resized] w1] eqn:Er.
  { inversion E; subst. apply cv2_resize_frame in Er as [Hd Ha]. auto. }
  apply cv2_resize_frame in Er as [Hd [n1 Ha]].
  destruct (String.eqb (lower fmt) "png").
  - destruct (cv2_cvtColor_BGR2RGB bgr2rgb w1 resized) as [[e|rgb] w2] eqn:Ec.
    + inversion E; subst. apply cv2_cvtColor_frame in Ec as [Hd2 [n2 Ha2]].
      split; [reflexivity|]. split.
      * exists (n1 ++ n2). now rewrite Ha2, Ha, app_assoc.
      * left. congruence.
    + apply cv2_cvtColor_frame in Ec as [Hd2 [n2 Ha2]].
      assert (Hpre : exists new, arrays w2 = arrays w ++ new).
      { exists (n1 ++ n2). now rewrite Ha2, Ha, app_assoc. }
      destruct (arrays w2 !! rgb) as [pil|]; inversion E; subst; simpl.
      * split; [reflexivity|]. split; [exact Hpre|]. right. eexists. now rewrite Hd2, Hd.
      * split; [reflexivity|]. split; [exact Hpre|]. left. congruence.
  - destruct (String.eqb (lower fmt) "svg").
    + destruct (arrays w1 !! resized) as [emb|]; inversion E; subst; simpl.
      * split; [reflexivity|]. split; [eauto|]. right. eexists. now rewrite Hd.
      * split; [reflexivity|]. split; [eauto|]. now left.
    + inversion E; subst. split; [reflexivity|]. split; [eauto|]. now left.
Qed.

Lemma export_returns self path fmt w out self' w' :
  export_for_lightburn inter_linear bgr2rgb self path fmt w = (inr out, self', w') ->
  out = path /\
  exists a,
    disk w' = (path, a) :: disk w
    /\ pixel_size a =
         (let '(_, _, width_mm, height_mm) := ArucoAligner.design_rect_mm (alignment_data self) in
          (int (width_mm * px_per_mm self), int (height_mm * px_per_mm self)))
    /\ (0 < fst (pixel_size a))%Z /\ (0 < snd (pixel_size a))%Z.
Proof.
  unfold export_for_lightburn. intros E.
  destruct (design_image self) as [design|]; [|discriminate].
  destruct (ArucoAligner.design_rect_mm (alignment_data self)) as [[[x y] wmm] hmm].
  destruct (cv2_resize inter_linear w design _) as [[e|resized] w1] eqn:Er; [discriminate|].
  apply cv2_resize_returns in Er
    as (img & out1 & Hsrc & Hpw & Hph & Hw1 & Hh1 & Hc1 & Hl & Ha & Hd).
  assert (Hres : arrays w1 !! resized = Some out1).
  { rewrite Ha, Hl. apply list_lookup_middle. reflexivity. }
  destruct (String.eqb (lower fmt) "png").
  - destruct (cv2_cvtColor_BGR2RGB bgr2rgb w1 resized) as [[e|rgb] w2] eqn:Ec; [discriminate|].
    apply cv2_cvtColor_returns in Ec
      as (img2 & out2 & Hsrc2 & Hw2 & Hh2 & Hl2 & Ha2 & Hd2).
    rewrite Hres in Hsrc2. inversion Hsrc2; subst img2.
    assert (Hrgb : arrays w2 !! rgb = Some out2).
    { rewrite Ha2, Hl2. apply list_lookup_middle. reflexivity. }
    rewrite Hrgb in E. inversion E; subst. split; [reflexivity|].
    eexists. split; [simpl; now rewrite Hd2, Hd|].
    unfold pixel_size. simpl. rewrite Hw2, Hh2, Hw1, Hh1. auto.
  - destruct (String.eqb (lower fmt) "svg"); [|discriminate].
    rewrite Hres in E. inversion E; subst. split; [reflexivity|].
    eexists. split; [simpl; now rewrite Hd|].
    unfold pixel_size. simpl. rewrite Hw1, Hh1. auto.
Qed.
End ExportFacts.

Section Truncation.
Import DesignWarper.
Local Open Scope Q_scope.




End Truncation.

Section ExportTotal.
Import DesignWarper.
Local Open Scope Q_scope.
Variable inter_linear : image -> Z -> Z -> list Z.
Variable bgr2rgb : image -> list Z.


End ExportTotal.


(** The same sizes come out of the computation run in IEEE binary64. *)
Lemma export_size_binary64 :
  Binary64.size_px 100 300 = Some 1181%Z /\
  Binary64.size_px 80 300 = Some 944%Z.
Proof. split; vm_compute; reflexivity. Qed.

(** At a low resolution the truncated size is also more than 0.1 mm short:
    at 72 dpi one millimetre becomes 2 pixels, 0.7055... mm. *)
Lemma truncation_exceeds_tenth_mm_at_72_dpi :
  DesignWarper.int (DesignWarper.exact_px 1 72) = 2%Z /\
  ~ (Qabs (DesignWarper.mm_of_px 2 72 - 1) <= 1 # 10)%Q.
Proof.
  split; [reflexivity|].
  vm_compute. intros Hle. apply Hle. reflexivity.
Qed.



(** C10.  [export_for_lightburn] hands the warper back as it was
    ([design_image], [alignment_data] and [dpi] included), whether it returns
    or raises; every array that was in the store, the design buffer among
    them, is still there with the same contents (the resampled raster is a
    new array); and two successful exports in a row write rasters of the same
    pixel dimensions. *)
Theorem export_leaves_warper_unchanged
    (inter_linear : DesignWarper.image -> Z -> Z -> list Z)
    (bgr2rgb : DesignWarper.image -> list Z)
    (self self1 : DesignWarper.t) (path1 format1 : string)
    (r1 : result string) (w w1 : DesignWarper.world) :
  DesignWarper.export_for_lightburn inter_linear bgr2rgb self path1 format1 w
    = (r1, self1, w1) ->
  self1 = self
  /\ DesignWarper.design_image self1 = DesignWarper.design_image self
  /\ DesignWarper.alignment_data self1 = DesignWarper.alignment_data self
  /\ DesignWarper.dpi self1 = DesignWarper.dpi self
  /\ (forall l img,
        DesignWarper.arrays w !! l = Some img ->
        DesignWarper.arrays w1 !! l = Some img)
  /\ (forall path2 format2 out1 out2 self2 w2 f1 f2,
        r1 = inr out1 ->
        DesignWarper.export_for_lightburn inter_linear bgr2rgb
          self1 path2 format2 w1 = (inr out2, self2, w2) ->
        head (DesignWarper.disk w1) = Some f1 ->
        head (DesignWarper.disk w2) = Some f2 ->
        DesignWarper.pixel_size (snd f2) = DesignWarper.pixel_size (snd f1)).
Proof.
  intros E.
  pose proof (export_frame _ _ _ _ _ _ _ _ _ E) as (Hself & [new Harr] & _).
  subst self1.
  split; [reflexivity|]. split; [reflexivity|]. split; [reflexivity|].
  split; [reflexivity|]. split.
  - intros l img Hl. rewrite Harr. now apply lookup_app_l_Some.
  - intros path2 format2 out1 out2 self2 w2 f1 f2 Hr E2 Hf1 Hf2. subst r1.
    apply export_returns in E as (_ & a1 & Hd1 & Hs1 & _).
    apply export_returns in E2 as (_ & a2 & Hd2 & Hs2 & _).
    rewrite Hd1 in Hf1. rewrite Hd2 in Hf2. simpl in Hf1, Hf2.
    inversion Hf1; inversion Hf2; subst. simpl. now rewrite Hs1, Hs2.
Qed.

Lemma export_leaves_warper_unchanged_witness :
  exists w1,
    Examples.test_warper = Examples.test_warper
    /\ DesignWarper.design_image Examples.test_warper
       = DesignWarper.design_image Examples.test_warper
    /\ DesignWarper.alignment_data Examples.test_warper
       = DesignWarper.alignment_data Examples.test_warper
    /\ DesignWarper.dpi Examples.test_warper
       = DesignWarper.dpi Examples.test_warper
    /\ (forall l img,
          DesignWarper.arrays Examples.test_world !! l = Some img ->
          DesignWarper.arrays w1 !! l = Some img)
    /\ (forall path2 format2 out1 out2 self2 w2 f1 f2,
          @inr exn string "out.svg"%string = inr out1 ->
          DesignWarper.export_for_lightburn Examples.blank_resample
            Examples.blank_swap Examples.test_warper path2 format2 w1
          = (inr out2, self2, w2) ->
          head (DesignWarper.disk w1) = Some f1 ->
          head (DesignWarper.disk w2) = Some f2 ->
          DesignWarper.pixel_size (snd f2) = DesignWarper.pixel_size (snd f1)).
Proof.
  eexists.
  eapply (export_leaves_warper_unchanged Examples.blank_resample
            Examples.blank_swap Examples.test_warper Examples.test_warper
            "out.svg" "SVG" (inr "out.svg"%string) Examples.test_world).
  vm_compute. reflexivity.
Defined.

(** ** The UDP command interface *)

Section ReplyText.
Import LightBurnController.
Local Open Scope N_scope.

Lemma startswith_spec (p s : str) :
  startswith s p = true <-> exists r, s = p ++ r.
Proof.
  revert s. induction p as [|a p IH]; intros s.
  - split; [intros _; now exists s | intros _; now destruct s].
  - destruct s as [|b s]; simpl.
    + split; [discriminate | intros [r Hr]; discriminate].
    + rewrite andb_true_iff, N.eqb_eq, IH. split.
      * intros [-> [r ->]]. now exists r.
      * intros [r Hr]. inversion Hr; subst.
        split; [reflexivity | now exists r].
Qed.

Lemma contains_nil (p : str) : contains p [] = startswith [] p.
Proof. unfold contains. apply orb_false_r. Qed.

Lemma contains_cons (p : str) (b : N) (s : str) :
  contains p (b :: s) = startswith (b :: s) p || contains p s.
Proof. reflexivity. Qed.

(** ['OK' in text]: the two characters occur next to each other, as they
    are (an upper-case O followed by an upper-case K). *)
Lemma contains_spec (p s : str) :
  contains p s = true <-> exists l r, s = l ++ p ++ r.
Proof.
  induction s as [|b s IH].
  - rewrite contains_nil, startswith_spec. split.
    + intros [r Hr]. now exists [], r.
    + intros (l & r & Hs). destruct l; [now exists r|discriminate].
  - rewrite contains_cons, orb_true_iff, startswith_spec, IH. split.
    + intros [[r Hr]|(l & r & Hs)].
      * now exists [], r.
      * exists (b :: l), r. now rewrite Hs.
    + intros (l & r & Hs). destruct l as [|c l].
      * left. now exists r.
      * right. inversion Hs; subst. now exists l, r.
Qed.

Lemma contains_lstrip (c : N) (p s : str) :
  isspace c = false ->
  contains (c :: p) (lstrip s) = contains (c :: p) s.
Proof.
  intros Hc. induction s as [|b s IH]; [reflexivity|].
  simpl lstrip. destruct (isspace b) eqn:Hb; [|reflexivity].
  rewrite IH, contains_cons. simpl startswith.
  destruct (N.eqb_spec c b) as [->|_]; [congruence | reflexivity].
Qed.

Lemma contains_rev (p s : str) :
  contains p (rev s) = contains (rev p) s.
Proof.
  apply eq_true_iff_eq. rewrite !contains_spec. split.
  - intros (l & r & Hs). exists (rev r), (rev l).
    rewrite <- (rev_involutive s), Hs, !rev_app_distr.
    now rewrite <- app_assoc.
  - intros (l & r & Hs). exists (rev r), (rev l).
    rewrite Hs, !rev_app_distr, rev_involutive. now rewrite <- app_assoc.
Qed.

(** Stripping white space takes no 'OK' away and brings none in. *)
Lemma contains_OK_strip (s : str) :
  contains OK (strip s) = contains OK s.
Proof.
  unfold strip. rewrite contains_rev. unfold OK. simpl rev.
  rewrite contains_lstrip by reflexivity.
  rewrite <- (contains_lstrip 79 [75] s) by reflexivity.
  change [75; 79] with (rev [79; 75]).
  now rewrite <- contains_rev, rev_involutive.
Qed.

Lemma is_success_strip (text : str) :
  is_success (Some (strip text)) = contains OK text.
Proof. apply contains_OK_strip. Qed.

Lemma send_command_sends self command net :
  sent (snd (send_command self command net))
    = sent net ++ [(command, (host self, port self))].
Proof.
  unfold send_command, recvfrom, sendto. simpl.
  destruct (inbox net) as [|[data| |] rest]; simpl; try reflexivity.
  now destruct (utf8_decode data).
Qed.

Lemma send_command_timeout self command net :
  next_outcome net = TimedOut ->
  fst (send_command self command net) = inr None.
Proof.
  unfold next_outcome, send_command, recvfrom, sendto. simpl.
  destruct (inbox net) as [|[data| |] rest]; simpl; intros E;
    try discriminate; reflexivity.
Qed.

Lemma send_command_reply self command net data text :
  next_outcome net = Reply data ->
  utf8_decode data = Some text ->
  fst (send_command self command net) = inr (Some (strip text)).
Proof.
  unfold next_outcome, send_command, recvfrom, sendto. simpl.
  destruct (inbox net) as [|[d| |] rest]; simpl; intros E Hd;
    try discriminate.
  inversion E; subst. now rewrite Hd.
Qed.

Lemma send_command_socket_error self command net :
  next_outcome net = SocketError ->
  fst (send_command self command net) = inl OSError.
Proof.
  unfold next_outcome, send_command, recvfrom, sendto. simpl.
  destruct (inbox net) as [|[data| |] rest]; simpl; intros E;
    try discriminate; reflexivity.
Qed.

Lemma send_command_undecodable self command net data :
  next_outcome net = Reply data ->
  utf8_decode data = None ->
  fst (send_command self command net) = inl UnicodeDecodeError.
Proof.
  unfold next_outcome, send_command, recvfrom, sendto. simpl.
  destruct (inbox net) as [|[d| |] rest]; simpl; intros E Hd;
    try discriminate.
  inversion E; subst. now rewrite Hd.
Qed.

(** Every command that reports [is_success] of the reply meets the
    contract. *)
Lemma reports_success_contract self command
    (op : network -> result bool * network) :
  (forall net,
      op net =
        match send_command self command net with
        | (inr reply, net') => (ret (is_success reply), net')
        | (inl e, net') => (inl e, net')
        end) ->
  ok_contract op.
Proof.
  intros Hop net. rewrite Hop.
  assert (Ht : next_outcome net = TimedOut ->
               fst (send_command self command net) = inr None)
    by apply send_command_timeout.
  assert (Hr : forall data text,
             next_outcome net = Reply data ->
             utf8_decode data = Some text ->
             fst (send_command self command net) = inr (Some (strip text)))
    by apply send_command_reply.
  assert (Hu : forall data,
             next_outcome net = Reply data ->
             utf8_decode data = None ->
             fst (send_command self command net) = inl UnicodeDecodeError)
    by apply send_command_undecodable.
  assert (He : next_outcome net = SocketError ->
               fst (send_command self command net) = inl OSError)
    by apply send_command_socket_error.
  destruct (send_command self command net) as [[e|reply] net']; simpl in *.
  - split; [|split; [|split]].
    + split; [discriminate|].
      intros (data & text & Hn & Hd & _).
      specialize (Hr data text Hn Hd). discriminate.
    + intros Hn. specialize (Ht Hn). discriminate.
    + intros data text Hn Hd. specialize (Hr data text Hn Hd). discriminate.
    + intros data Hn Hd. specialize (Hu data Hn Hd). now inversion Hu.
  - split; [|split; [|split]].
    + split.
      * intros Hs. destruct (next_outcome net) as [data| |] eqn:Hn.
        -- destruct (utf8_decode data) as [text|] eqn:Hd.
           ++ exists data, text. repeat split; try assumption.
              specialize (Hr data text eq_refl Hd).
              inversion Hr; subst. injection Hs as Hs'.
              simpl in Hs'. rewrite contains_OK_strip in Hs'. exact Hs'.
           ++ specialize (Hu data eq_refl Hd). discriminate.
        -- specialize (Ht eq_refl). inversion Ht; subst. discriminate.
        -- specialize (He eq_refl). discriminate.
      * intros (data & text & Hn & Hd & Hc).
        specialize (Hr data text Hn Hd). inversion Hr; subst.
        now rewrite is_success_strip, Hc.
    + intros Hn. specialize (Ht Hn). now inversion Ht.
    + intros data text Hn Hd. specialize (Hr data text Hn Hd).
      inversion Hr; subst. now rewrite is_success_strip.
    + intros data Hn Hd. specialize (Hu data Hn Hd). discriminate.
Qed.
End ReplyText.

(** C7, as stated, fails on a reply that is not valid UTF-8: only the
    timeout is caught in [send_command], so the decoding error of the single
    byte 0xFF leaves [ping] as an exception. *)
Lemma ping_raises_on_undecodable_reply :
  LightBurnController.next_outcome
    (Examples.pending [LightBurnController.Reply [xff]])
    = LightBurnController.Reply [xff]
  /\ fst (LightBurnController.ping LightBurnController.init
            (Examples.pending [LightBurnController.Reply [xff]]))
     = inl UnicodeDecodeError.
Proof. split; reflexivity. Qed.

(** The match is case-sensitive: 'ok' is a failure, 'OK' followed by a line
    end a success. *)
Lemma ping_reply_examples :
  fst (LightBurnController.ping LightBurnController.init
         (Examples.pending [LightBurnController.Reply [x6f; x6b]]))
    = inr false
  /\ fst (LightBurnController.ping LightBurnController.init
            (Examples.pending [LightBurnController.Reply [x4f; x4b; x0a]]))
     = inr true
  /\ fst (LightBurnController.ping LightBurnController.init
            (Examples.pending []))
     = inr false.
Proof. repeat split; reflexivity. Qed.

(** C7, amended.  PING, START, CLOSE / FORCECLOSE and, for an existing file,
    LOADFILE / FORCELOAD return success exactly when a reply arrived and its
    text contains the substring 'OK' as written; a timeout and every other
    reply that decodes as UTF-8 give [False] without an exception; a reply
    that is not valid UTF-8 raises UnicodeDecodeError. *)
Theorem commands_succeed_iff_reply_contains_OK
    (self : LightBurnController.t) :
  LightBurnController.ok_contract (LightBurnController.ping self)
  /\ LightBurnController.ok_contract (LightBurnController.start_job self)
  /\ (forall force,
        LightBurnController.ok_contract
          (LightBurnController.close_file self force))
  /\ (forall fs path force,
        LightBurnController.exists_ fs (LightBurnController.resolve fs path)
          = true ->
        LightBurnController.ok_contract
          (LightBurnController.load_file fs self path force))
  /\ (forall text : LightBurnController.str,
        LightBurnController.contains LightBurnController.OK text = true <->
        exists l r, text = l ++ LightBurnController.OK ++ r).
Proof.
  split; [|split; [|split; [|split]]].
  - now apply (reports_success_contract self "PING").
  - now apply (reports_success_contract self "START").
  - intros force.
    now apply (reports_success_contract self
                 (if force then "FORCECLOSE" else "CLOSE")%string).
  - intros fs path force Hex.
    apply (reports_success_contract self
             (if force
              then "FORCELOAD:" ++ "file://" ++ LightBurnController.resolve fs path
              else "LOADFILE:" ++ "file://" ++ LightBurnController.resolve fs path)%string).
    intros net. unfold LightBurnController.load_file. rewrite Hex. reflexivity.
  - intros text. apply contains_spec.
Qed.

Lemma commands_succeed_iff_reply_contains_OK_witness :
  fst (LightBurnController.load_file Examples.one_file
         LightBurnController.init "design.png" true
         (Examples.pending [LightBurnController.Reply [x4f; x4b]]))
  = inr true.
Proof.
  apply (proj1 (proj2 (proj2
           (proj1 (proj2 (proj2 (proj2
              (commands_succeed_iff_reply_contains_OK
                 LightBurnController.init))))
              Examples.one_file "design.png"%string true eq_refl
              (Examples.pending [LightBurnController.Reply [x4f; x4b]]))))
           [x4f; x4b] [79; 75]%N).
  - reflexivity.
  - reflexivity.
Defined.

(** C9.  For a path whose resolved form does not exist, [load_file] returns
    [False] and leaves the transport untouched, with or without [force].
    In general the datagrams sent grow by one exactly when the resolved path
    exists, and that datagram is LOADFILE: or FORCELOAD: followed by
    'file://' and the resolved path. *)
Theorem load_file_sends_only_for_existing_file
    (fs : LightBurnController.filesystem) (self : LightBurnController.t)
    (file_path : string) (force : bool) (net : LightBurnController.network) :
  (LightBurnController.exists_ fs (LightBurnController.resolve fs file_path)
     = false ->
   LightBurnController.load_file fs self file_path force net
     = (inr false, net))
  /\
  LightBurnController.sent
    (snd (LightBurnController.load_file fs self file_path force net))
  = LightBurnController.sent net ++
    (if LightBurnController.exists_ fs
          (LightBurnController.resolve fs file_path)
     then [(((if force then "FORCELOAD:" else "LOADFILE:")
             ++ "file://" ++ LightBurnController.resolve fs file_path)%string,
            (LightBurnController.host self, LightBurnController.port self))]
     else []).
Proof.
  unfold LightBurnController.load_file.
  destruct (LightBurnController.exists_ fs
              (LightBurnController.resolve fs file_path)); simpl.
  - split; [discriminate|].
    pose proof (send_command_sends self
      (if force
       then "FORCELOAD:" ++ "file://" ++ LightBurnController.resolve fs file_path
       else "LOADFILE:" ++ "file://" ++ LightBurnController.resolve fs file_path)%string
      net) as Hs.
    destruct (LightBurnController.send_command self _ net) as [[e|reply] net'];
      simpl in *; rewrite Hs; now destruct force.
  - split; [reflexivity | now rewrite app_nil_r].
Qed.

Lemma load_file_sends_only_for_existing_file_witness :
  LightBurnController.load_file Examples.one_file LightBurnController.init
    "missing.png" true
    (Examples.pending [LightBurnController.Reply [x4f; x4b]])
  = (inr false, Examples.pending [LightBurnController.Reply [x4f; x4b]]).
Proof.
  apply (proj1 (load_file_sends_only_for_existing_file Examples.one_file
                  LightBurnController.init "missing.png" true
                  (Examples.pending [LightBurnController.Reply [x4f; x4b]]))).
  reflexivity.
Defined.

(** On the one existing file the datagram is the FORCELOAD command with the
    resolved path as a file URI. *)
Lemma load_file_existing_example :
  LightBurnController.sent
    (snd (LightBurnController.load_file Examples.one_file
            LightBurnController.init "design.png" true
            (Examples.pending [LightBurnController.Reply [x4f; x4b]])))
  = [("FORCELOAD:file:///out/design.png"%string, ("127.0.0.1"%string, 19840%Z))].
Proof. reflexivity. Qed.

(** * Further properties of the code *)

(** ** Waiting for LightBurn, loading and starting *)

Section CommandTraffic.
Import LightBurnController LightBurnFlow.

Lemma send_command_consumes self command net :
  inbox (snd (send_command self command net)) = tl (inbox net).
Proof.
  unfold send_command, recvfrom, sendto. simpl.
  destruct (inbox net) as [|[data| |] rest]; simpl; try reflexivity.
  now destruct (utf8_decode data).
Qed.

(** A command built on [send_command] sends its one datagram and takes one
    pending outcome, whatever comes back. *)
Lemma reporting_command_traffic self command
    (op : network -> result bool * network) net :
  op net =
    match send_command self command net with
    | (inr reply, net') => (ret (is_success reply), net')
    | (inl e, net') => (inl e, net')
    end ->
  sent (snd (op net)) = sent net ++ [datagram self command]
  /\ inbox (snd (op net)) = tl (inbox net).
Proof.
  intros ->.
  pose proof (send_command_sends self command net) as Hs.
  pose proof (send_command_consumes self command net) as Hc.
  destruct (send_command self command net) as [[e|reply] net']; auto.
Qed.

Lemma ping_traffic self net :
  sent (snd (ping self net)) = sent net ++ [datagram self "PING"]
  /\ inbox (snd (ping self net)) = tl (inbox net).
Proof. now apply reporting_command_traffic. Qed.

Lemma start_job_traffic self net :
  sent (snd (start_job self net)) = sent net ++ [datagram self "START"]
  /\ inbox (snd (start_job self net)) = tl (inbox net).
Proof. now apply reporting_command_traffic. Qed.

End CommandTraffic.


Section Waiting.
Import LightBurnController LightBurnFlow.
Local Open Scope Q_scope.

Lemma inject_Z_pred (z : Z) : inject_Z (z - 1) == inject_Z z - 1.
Proof.
  unfold Z.sub. rewrite inject_Z_plus, inject_Z_opp. reflexivity.
Qed.

Lemma Qceiling_unique (x : Q) (z : Z) :
  inject_Z z - 1 < x -> x <= inject_Z z -> Qceiling x = z.
Proof.
  intros Hlo Hhi.
  pose proof (Qle_ceiling x) as H1.
  pose proof (Qceiling_lt x) as H2.
  rewrite inject_Z_pred in H2.
  assert (Qceiling x <= z)%Z.
  { apply Z.lt_succ_r. rewrite Zlt_Qlt. unfold Z.succ.
    rewrite inject_Z_plus. change (inject_Z 1) with 1. Lqa.lra. }
  assert (z <= Qceiling x)%Z.
  { apply Z.lt_succ_r. rewrite Zlt_Qlt. unfold Z.succ.
    rewrite inject_Z_plus. change (inject_Z 1) with 1. Lqa.lra. }
  lia.
Qed.

Lemma polls_done max_wait poll_interval elapsed :
  0 < poll_interval -> max_wait <= elapsed ->
  polls max_wait poll_interval elapsed = O.
Proof.
  intros Hp Hle. unfold polls.
  assert (Hx : (max_wait - elapsed) / poll_interval <= 0).
  { apply Qle_shift_div_r; [exact Hp | Lqa.lra]. }
  apply Qceiling_resp_le in Hx. change (Qceiling 0) with 0%Z in Hx. lia.
Qed.

Lemma polls_step max_wait poll_interval elapsed :
  0 < poll_interval -> elapsed < max_wait ->
  polls max_wait poll_interval elapsed
  = S (polls max_wait poll_interval (elapsed + poll_interval)).
Proof.
  intros Hp Hlt. unfold polls.
  set (x := (max_wait - elapsed) / poll_interval).
  assert (Hx : 0 < x).
  { unfold x. apply Qlt_shift_div_l; [exact Hp | Lqa.lra]. }
  assert (Hc : (1 <= Qceiling x)%Z).
  { pose proof (Qle_ceiling x) as H1.
    assert (0 < Qceiling x)%Z; [|lia].
    rewrite Zlt_Qlt. change (inject_Z 0) with 0. Lqa.lra. }
  assert (E : Qceiling ((max_wait - (elapsed + poll_interval)) / poll_interval)
              = (Qceiling x - 1)%Z).
  { apply Qceiling_unique.
    - pose proof (Qceiling_lt x) as H2.
      rewrite inject_Z_pred in *.
      assert (Hs : (max_wait - (elapsed + poll_interval)) / poll_interval
                   == x - 1).
      { unfold x. field. intros Hz. rewrite Hz in Hp. discriminate. }
      rewrite Hs. Lqa.lra.
    - pose proof (Qle_ceiling x) as H1.
      rewrite inject_Z_pred.
      assert (Hs : (max_wait - (elapsed + poll_interval)) / poll_interval
                   == x - 1).
      { unfold x. field. intros Hz. rewrite Hz in Hp. discriminate. }
      rewrite Hs. Lqa.lra. }
  rewrite E. lia.
Qed.

Lemma Qle_bool_false (a b : Q) : b < a -> Qle_bool a b = false.
Proof.
  intros Hlt. destruct (Qle_bool a b) eqn:E; [|reflexivity].
  apply Qle_bool_imp_le in E. Lqa.lra.
Qed.

(** With a positive interval the loop ends within [polls] turns, one PING
    per turn; it answers [False] only after all of them. *)
Lemma wait_loop_bounded self max_wait poll_interval :
  0 < poll_interval ->
  forall fuel elapsed net,
    (polls max_wait poll_interval elapsed <= fuel)%nat ->
    exists r net' k,
      wait_loop fuel self max_wait poll_interval elapsed net = Some (r, net')
      /\ (k <= polls max_wait poll_interval elapsed)%nat
      /\ sent net' = sent net ++ repeat (datagram self "PING") k
      /\ (r = inr false -> k = polls max_wait poll_interval elapsed)
      /\ (r = inr true -> (1 <= k)%nat).
Proof.
  intros Hp. induction fuel as [|fuel IH]; intros elapsed net Hfuel.
  - destruct (Qlt_le_dec elapsed max_wait) as [Hlt|Hge].
    + rewrite (polls_step _ _ _ Hp Hlt) in Hfuel. lia.
    + exists (inr false), net, O. simpl.
      rewrite (proj2 (Qle_bool_iff _ _) Hge).
      rewrite (polls_done _ _ _ Hp Hge), app_nil_r.
      repeat split; auto; discriminate.
  - destruct (Qlt_le_dec elapsed max_wait) as [Hlt|Hge].
    + simpl. rewrite (Qle_bool_false _ _ Hlt).
      rewrite (polls_step _ _ _ Hp Hlt) in *.
      destruct (ping_traffic self net) as [Hs _].
      destruct (ping self net) as [[e|[|]] net1]; simpl in Hs.
      * exists (inl e), net1, 1%nat. simpl.
        repeat split; auto; try lia; discriminate.
      * exists (inr true), net1, 1%nat. simpl.
        repeat split; auto; try lia; discriminate.
      * destruct (IH (elapsed + poll_interval) net1) as
          (r & net' & k & E & Hk & Hsent & Hf & Ht); [lia|].
        exists r, net', (S k). rewrite E.
        split; [reflexivity|]. split; [lia|]. split.
        -- rewrite Hsent, Hs. simpl. now rewrite <- app_assoc.
        -- split; [intros Hr; rewrite (Hf Hr); reflexivity | intros _; lia].
    + exists (inr false), net, O. simpl.
      rewrite (proj2 (Qle_bool_iff _ _) Hge).
      rewrite (polls_done _ _ _ Hp Hge), app_nil_r.
      repeat split; auto; discriminate.
Qed.


End Waiting.





Section LoadAndStart.
Import LightBurnController LightBurnFlow.

Lemma load_file_traffic fs self file_path force net :
  sent (snd (load_file fs self file_path force net))
  = sent net ++
    (if exists_ fs (resolve fs file_path)
     then [datagram self
             ((if force then "FORCELOAD:" else "LOADFILE:")
              ++ "file://" ++ resolve fs file_path)]
     else []).
Proof.
  unfold load_file.
  destruct (exists_ fs (resolve fs file_path)); simpl.
  - pose proof (send_command_sends self
      (if force
       then "FORCELOAD:" ++ "file://" ++ resolve fs file_path
       else "LOADFILE:" ++ "file://" ++ resolve fs file_path)%string
      net) as Hs.
    destruct (send_command self _ net) as [[e|reply] net'];
      simpl in *; rewrite Hs; now destruct force.
  - now rewrite app_nil_r.
Qed.

Lemma load_file_true_exists fs self file_path force net :
  fst (load_file fs self file_path force net) = inr true ->
  exists_ fs (resolve fs file_path) = true.
Proof.
  unfold load_file.
  destruct (exists_ fs (resolve fs file_path)); [reflexivity|discriminate].
Qed.

Lemma default_polls :
  polls default_max_wait default_poll_interval 0 = 20%nat.
Proof. reflexivity. Qed.

End LoadAndStart.

(** X4.  [load_and_start] sends, in this order, the PINGs of the wait (at
    most 20, none without [wait_for_ready]), then at most one FORCELOAD of
    the resolved path, sent only for an existing file and, when waiting, only
    after a PING was sent, then at most one START, sent only with
    [auto_start] and after the FORCELOAD; LOADFILE and CLOSE never appear.
    A [True] result implies the FORCELOAD went out and, with [auto_start],
    the START too. *)
Theorem load_and_start_order
    (fuel : nat) (fs : LightBurnController.filesystem) (file_path : string)
    (wait auto_start : bool) (net : LightBurnController.network) :
  (20 <= fuel)%nat ->
  exists r net' k loads starts,
    LightBurnFlow.load_and_start fuel fs file_path wait auto_start net
      = Some (r, net')
    /\ LightBurnController.sent net' =
         LightBurnController.sent net
         ++ repeat (LightBurnFlow.datagram LightBurnController.init "PING") k
         ++ loads ++ starts
    /\ (k <= 20)%nat
    /\ (wait = false -> k = O)
    /\ (loads = [] \/
        (LightBurnController.exists_ fs
           (LightBurnController.resolve fs file_path) = true
         /\ (wait = true -> (1 <= k)%nat)
         /\ loads =
              [LightBurnFlow.datagram LightBurnController.init
                 ("FORCELOAD:file://"
                  ++ LightBurnController.resolve fs file_path)]))
    /\ (starts = [] \/
        (auto_start = true /\ loads <> []
         /\ starts =
              [LightBurnFlow.datagram LightBurnController.init "START"]))
    /\ (r = inr true ->
        loads <> [] /\ (auto_start = true -> starts <> [])).
Proof.
  intros Hfuel.
  assert (Hwait : exists r1 net1 k,
             (if wait
              then LightBurnFlow.wait_for_ready fuel LightBurnController.init
                     LightBurnFlow.default_max_wait
                     LightBurnFlow.default_poll_interval net
              else Some (inr true, net)) = Some (r1, net1)
             /\ (k <= 20)%nat /\ (wait = false -> k = O)
             /\ LightBurnController.sent net1 =
                  LightBurnController.sent net
                  ++ repeat (LightBurnFlow.datagram LightBurnController.init "PING") k
             /\ (wait = true -> r1 = inr true -> (1 <= k)%nat)).
  { destruct wait.
    - destruct (wait_loop_bounded LightBurnController.init LightBurnFlow.default_max_wait
                  LightBurnFlow.default_poll_interval eq_refl fuel 0%Q net)
        as (r1 & net1 & k & E & Hk & Hs & _ & Ht).
      { rewrite default_polls. exact Hfuel. }
      rewrite default_polls in Hk.
      exists r1, net1, k.
      split; [exact E|]. split; [exact Hk|]. split; [discriminate|].
      split; [exact Hs|]. intros _. exact Ht.
    - exists (inr true), net, O. simpl. rewrite app_nil_r.
      split; [reflexivity|]. split; [lia|]. split; [reflexivity|].
      split; [reflexivity|]. discriminate. }
  destruct Hwait as (r1 & net1 & k & E1 & Hk & Hk0 & Hs1 & Hk1).
  unfold LightBurnFlow.load_and_start. cbv zeta.
  match goal with
  | |- context [match ?w with Some _ => _ | None => _ end] =>
      replace w with (Some (r1, net1)) by (symmetry; exact E1)
  end.
  unfold ret.
  destruct r1 as [e|[|]].
  - exists (inl e), net1, k, [], []. rewrite !app_nil_r.
    repeat split; auto; discriminate.
  - assert (Hk1' : wait = true -> (1 <= k)%nat) by (intros Hw; now apply Hk1).
    pose proof (load_file_traffic fs LightBurnController.init file_path true
                  net1) as Hs2.
    pose proof (load_file_true_exists fs LightBurnController.init file_path
                  true net1) as Hex.
    set (load_dg :=
           LightBurnFlow.datagram LightBurnController.init
             ("FORCELOAD:file://" ++ LightBurnController.resolve fs file_path)).
    set (loads :=
           if LightBurnController.exists_ fs
                (LightBurnController.resolve fs file_path)
           then [load_dg] else []).
    change (LightBurnController.sent
              (snd (LightBurnController.load_file fs LightBurnController.init
                      file_path true net1))
            = LightBurnController.sent net1 ++ loads) in Hs2.
    assert (Hloads :
              loads = [] \/
              (LightBurnController.exists_ fs
                 (LightBurnController.resolve fs file_path) = true
               /\ (wait = true -> (1 <= k)%nat)
               /\ loads = [load_dg])).
    { unfold loads.
      destruct (LightBurnController.exists_ fs
                  (LightBurnController.resolve fs file_path));
        [right | left]; auto. }
    assert (Hsent : forall net2,
               LightBurnController.sent net2
                 = LightBurnController.sent net1 ++ loads ->
               LightBurnController.sent net2
                 = LightBurnController.sent net
                   ++ repeat (LightBurnFlow.datagram LightBurnController.init
                                "PING") k
                   ++ loads ++ []).
    { intros net2 ->. now rewrite Hs1, app_nil_r, <- app_assoc. }
    destruct (LightBurnController.load_file fs LightBurnController.init
                file_path true net1) as [[e|[|]] net2]; simpl in Hs2, Hex.
    + exists (inl e), net2, k, loads, [].
      split; [reflexivity|]. split; [now apply Hsent|].
      repeat split; auto; discriminate.
    + specialize (Hex eq_refl).
      assert (Hl : loads = [load_dg]) by (unfold loads; now rewrite Hex).
      assert (Hne : loads <> []) by (rewrite Hl; discriminate).
      destruct auto_start.
      * destruct (start_job_traffic LightBurnController.init net2) as [Hs3 _].
        destruct (LightBurnController.start_job LightBurnController.init net2)
          as [[e|[|]] net3]; simpl in Hs3;
          (eexists _, net3, k, loads,
             [LightBurnFlow.datagram LightBurnController.init "START"];
           split; [reflexivity|];
           split; [rewrite Hs3, Hs2, Hs1, <- !app_assoc; reflexivity|];
           split; [exact Hk|]; split; [exact Hk0|];
           split; [exact Hloads|];
           split; [right; repeat split; auto|];
           intros _; split; [exact Hne|]; intros _; discriminate).
      * exists (inr true), net2, k, loads, [].
        split; [reflexivity|]. split; [now apply Hsent|].
        split; [exact Hk|]. split; [exact Hk0|]. split; [exact Hloads|].
        split; [now left|]. intros _. split; [exact Hne | discriminate].
    + exists (inr false), net2, k, loads, [].
      split; [reflexivity|]. split; [now apply Hsent|].
      repeat split; auto; discriminate.
  - exists (inr false), net1, k, [], []. rewrite !app_nil_r.
    repeat split; auto; discriminate.
Qed.

Section Acknowledgement.
Import LightBurnController LightBurnFlow.

Lemma reporting_command_acknowledged self command
    (op : network -> result bool * network) sent0 data rest :
  (forall net,
      op net =
        match send_command self command net with
        | (inr reply, net') => (ret (is_success reply), net')
        | (inl e, net') => (inl e, net')
        end) ->
  acknowledges data ->
  op {| sent := sent0; inbox := Reply data :: rest |}
  = (inr true, {| sent := sent0 ++ [datagram self command]; inbox := rest |}).
Proof.
  intros Hop (text & Hd & Hc). rewrite Hop.
  unfold send_command, recvfrom, sendto. simpl. rewrite Hd.
  unfold ret. now rewrite is_success_strip, Hc.
Qed.

Lemma reporting_command_declined self command
    (op : network -> result bool * network) sent0 o rest :
  (forall net,
      op net =
        match send_command self command net with
        | (inr reply, net') => (ret (is_success reply), net')
        | (inl e, net') => (inl e, net')
        end) ->
  declines o ->
  op {| sent := sent0; inbox := o :: rest |}
  = (inr false, {| sent := sent0 ++ [datagram self command]; inbox := rest |}).
Proof.
  intros Hop [->|(data & text & -> & Hd & Hc)]; rewrite Hop;
    unfold send_command, recvfrom, sendto; simpl.
  - reflexivity.
  - rewrite Hd. unfold ret. now rewrite is_success_strip, Hc.
Qed.

Lemma load_file_existing fs self file_path force net :
  exists_ fs (resolve fs file_path) = true ->
  load_file fs self file_path force net =
    match send_command self
            ((if force then "FORCELOAD:" else "LOADFILE:")
             ++ "file://" ++ resolve fs file_path) net with
    | (inr reply, net') => (ret (is_success reply), net')
    | (inl e, net') => (inl e, net')
    end.
Proof.
  intros Hex. unfold load_file. rewrite Hex. simpl. now destruct force.
Qed.

End Acknowledgement.

(** X5.  When LightBurn acknowledges the PING and the FORCELOAD but declines
    the START (no reply, or a reply without 'OK'), [send_to_lightburn] with
    [auto_start] still returns [True], START's result being dropped, whereas
    [load_and_start] returns [False]; both have sent PING, FORCELOAD and
    START, in this order. *)
Theorem send_to_lightburn_ignores_start_reply
    (fs : LightBurnController.filesystem) (file_path : string)
    (ack1 ack2 : list byte) (o3 : LightBurnController.outcome)
    (rest : list LightBurnController.outcome)
    (sent0 : list (string * (string * Z))) :
  LightBurnController.exists_ fs (LightBurnController.resolve fs file_path)
    = true ->
  LightBurnFlow.acknowledges ack1 ->
  LightBurnFlow.acknowledges ack2 ->
  LightBurnFlow.declines o3 ->
  let net :=
    {| LightBurnController.sent := sent0;
       LightBurnController.inbox :=
         LightBurnController.Reply ack1 :: LightBurnController.Reply ack2
           :: o3 :: rest |} in
  let after :=
    {| LightBurnController.sent :=
         sent0 ++
         [LightBurnFlow.datagram LightBurnController.init "PING";
          LightBurnFlow.datagram LightBurnController.init
            ("FORCELOAD:file://" ++ LightBurnController.resolve fs file_path);
          LightBurnFlow.datagram LightBurnController.init "START"];
       LightBurnController.inbox := rest |} in
  LightBurnFlow.send_to_lightburn fs file_path true net = (inr true, after)
  /\ (forall fuel,
         (1 <= fuel)%nat ->
         LightBurnFlow.load_and_start fuel fs file_path true true net
           = Some (inr false, after)).
Proof.
  intros Hex Ha1 Ha2 Hd net after. subst net after.
  assert (Hping :
            LightBurnController.ping LightBurnController.init
              {| LightBurnController.sent := sent0;
                 LightBurnController.inbox :=
                   LightBurnController.Reply ack1
                     :: LightBurnController.Reply ack2 :: o3 :: rest |}
            = (inr true, _))
    by (apply (reporting_command_acknowledged LightBurnController.init "PING");
        auto).
  assert (Hload := fun s =>
            reporting_command_acknowledged LightBurnController.init _
              (LightBurnController.load_file fs LightBurnController.init
                 file_path true) s ack2 (o3 :: rest)
              (fun net => load_file_existing fs LightBurnController.init
                            file_path true net Hex) Ha2).
  assert (Hstart := fun s =>
            reporting_command_declined LightBurnController.init "START"
              (LightBurnController.start_job LightBurnController.init)
              s o3 rest (fun net => eq_refl) Hd).
  split.
  - unfold LightBurnFlow.send_to_lightburn. cbv zeta.
    rewrite Hping, Hload, Hstart.
    unfold ret. rewrite <- !app_assoc. reflexivity.
  - intros [|fuel] Hf; [lia|].
    unfold LightBurnFlow.load_and_start, LightBurnFlow.wait_for_ready.
    cbv zeta. simpl LightBurnFlow.wait_loop.
    rewrite Hping, Hload, Hstart.
    unfold ret. rewrite <- !app_assoc. reflexivity.
Qed.

Lemma send_to_lightburn_ignores_start_reply_witness :
  LightBurnFlow.send_to_lightburn Examples.one_file "design.png" true
    (Examples.pending
       [LightBurnController.Reply [x4f; x4b];
        LightBurnController.Reply [x4f; x4b];
        LightBurnController.TimedOut])
  = (inr true,
     {| LightBurnController.sent :=
          [] ++
          [LightBurnFlow.datagram LightBurnController.init "PING";
           LightBurnFlow.datagram LightBurnController.init
             ("FORCELOAD:file://"
              ++ LightBurnController.resolve Examples.one_file "design.png");
           LightBurnFlow.datagram LightBurnController.init "START"];
        LightBurnController.inbox := [] |}).
Proof.
  apply (send_to_lightburn_ignores_start_reply Examples.one_file "design.png"
           [x4f; x4b] [x4f; x4b] LightBurnController.TimedOut [] []).
  - reflexivity.
  - exists [79; 75]%N. split; reflexivity.
  - exists [79; 75]%N. split; reflexivity.
  - left. reflexivity.
Defined.

Lemma load_and_start_order_witness :
  exists r net' k loads starts,
    LightBurnFlow.load_and_start 20 Examples.one_file "design.png" true true
      (Examples.pending
         [LightBurnController.TimedOut;
          LightBurnController.Reply [x4f; x4b];
          LightBurnController.Reply [x4f; x4b];
          LightBurnController.Reply [x4f; x4b]])
      = Some (r, net')
    /\ LightBurnController.sent net' =
         LightBurnController.sent
           (Examples.pending
              [LightBurnController.TimedOut;
               LightBurnController.Reply [x4f; x4b];
               LightBurnController.Reply [x4f; x4b];
               LightBurnController.Reply [x4f; x4b]])
         ++ repeat (LightBurnFlow.datagram LightBurnController.init "PING") k
         ++ loads ++ starts
    /\ (k <= 20)%nat
    /\ (true = false -> k = O)
    /\ (loads = [] \/
        (LightBurnController.exists_ Examples.one_file
           (LightBurnController.resolve Examples.one_file "design.png") = true
         /\ (true = true -> (1 <= k)%nat)
         /\ loads =
              [LightBurnFlow.datagram LightBurnController.init
                 ("FORCELOAD:file://"
                  ++ LightBurnController.resolve Examples.one_file
                       "design.png")]))
    /\ (starts = [] \/
        (true = true /\ loads <> []
         /\ starts =
              [LightBurnFlow.datagram LightBurnController.init "START"]))
    /\ (r = inr true ->
        loads <> [] /\ (true = true -> starts <> [])).
Proof.
  apply (load_and_start_order 20 Examples.one_file "design.png" true true).
  lia.
Defined.

(** ** Detection *)

Section DetectionFacts.
Import ArucoAligner Detection.

Lemma getitem_lookup {A} (l : list A) (i : nat) :
  Numpy.getitem l i =
    match l !! i with
    | Some v => inr v
    | None => inl IndexError
    end.
Proof.
  unfold Numpy.getitem. revert i.
  induction l as [|a l IH]; intros [|i]; simpl; auto.
Qed.

(** The loop records, for every id, the centre of its last occurrence, and
    keeps what was recorded for the ids it does not meet. *)
Lemma record_centers_spec (cs : list (list point)) :
  forall (l : list Z) (i : nat) (self : t),
    (i + length l <= length cs)%nat ->
    exists self',
      record_centers cs i l self = (inr tt, self')
      /\ jig_config self' = jig_config self
      /\ image self' = image self
      /\ homography self' = homography self
      /\ forall k c,
           detected_markers self' !! k = Some c <->
           ((exists j pts,
                l !! j = Some k /\ cs !! (i + j)%nat = Some pts
                /\ c = Numpy.mean_axis0 pts
                /\ forall j', (j < j')%nat -> l !! j' <> Some k)
            \/ ((forall j, l !! j <> Some k)
                /\ detected_markers self !! k = Some c)).
Proof.
  induction l as [|id rest IH]; intros i self Hlen.
  - exists self. simpl.
    split; [reflexivity|]. split; [reflexivity|]. split; [reflexivity|].
    split; [reflexivity|]. intros k c. split.
    + intros Hl. right. split; [intros j; now rewrite lookup_nil | exact Hl].
    + intros [(j & pts & Hj & _)|[_ Hl]]; [now rewrite lookup_nil in Hj | exact Hl].
  - simpl in Hlen. simpl record_centers. rewrite getitem_lookup.
    destruct (cs !! i) as [pts0|] eqn:Hi.
    2:{ apply lookup_ge_None in Hi. lia. }
    destruct (IH (S i)
                (set_detected_markers self
                   (<[id := Numpy.mean_axis0 pts0]> (detected_markers self))))
      as (self' & E & Hj & Him & Hh & Hm); [lia|].
    exists self'. split; [exact E|].
    split; [exact Hj|]. split; [exact Him|]. split; [exact Hh|].
    intros k c. split.
    + intros Hl. apply Hm in Hl as [(j & pts & Hj1 & Hj2 & Hc & Hlast)|[Hno Hl]].
      * left. exists (S j), pts. simpl.
        replace (i + S j)%nat with (S i + j)%nat by lia.
        repeat split; auto.
        intros [|j'] Hlt; [lia|]. simpl. apply Hlast. lia.
      * simpl in Hl. destruct (decide (id = k)) as [->|Hne].
        -- rewrite lookup_insert_eq in Hl. inversion Hl; subst.
           left. exists O, pts0. simpl. rewrite Nat.add_0_r.
           repeat split; auto.
           intros [|j'] Hlt; [lia|]. simpl. apply Hno.
        -- rewrite lookup_insert_ne in Hl by exact Hne.
           right. split; [|exact Hl].
           intros [|j]; simpl; [congruence | apply Hno].
    + intros [(j & pts & Hj1 & Hj2 & Hc & Hlast)|[Hno Hl]]; apply Hm.
      * destruct j as [|j].
        -- simpl in Hj1. inversion Hj1; subst id.
           rewrite Nat.add_0_r, Hi in Hj2. inversion Hj2; subst pts0.
           right. split.
           ++ intros j. apply (Hlast (S j)). lia.
           ++ simpl. now rewrite lookup_insert_eq, Hc.
        -- left. exists j, pts. simpl in Hj1.
           replace (S i + j)%nat with (i + S j)%nat by lia.
           repeat split; auto.
           intros j' Hlt. apply (Hlast (S j')). lia.
      * right. split; [intros j; apply (Hno (S j))|].
        simpl. rewrite lookup_insert_ne; [exact Hl|].
        intros ->. now apply (Hno O).
Qed.

End DetectionFacts.

(** X6.  When the detector finds nothing ([ids] is [None] or empty),
    [detect_markers] raises "No ArUco markers detected in image" before it
    resets anything: the aligner, the markers of the previous image
    included, is left as it was. *)
Theorem detect_markers_nothing_found
    (self : ArucoAligner.t) (found : Detection.detection)
    (shape : ArucoAligner.image_shape) :
  ArucoAligner.image self = Some shape ->
  Detection.ids found = None \/ Detection.ids found = Some [] ->
  Detection.detect_markers self found = (inl NoMarkersDetected, self).
Proof.
  intros Hi Hids. unfold Detection.detect_markers. rewrite Hi.
  destruct Hids as [-> | ->]; reflexivity.
Qed.

Lemma detect_markers_nothing_found_witness :
  Detection.detect_markers Examples.three_markers_aligner
    {| Detection.corners := []; Detection.ids := None |}
  = (inl NoMarkersDetected, Examples.three_markers_aligner).
Proof.
  apply (detect_markers_nothing_found Examples.three_markers_aligner
           {| Detection.corners := []; Detection.ids := None |}
           Examples.hd_image).
  - reflexivity.
  - left. reflexivity.
Defined.

(** X7.  On an image with at least one detection, [detect_markers] replaces
    the marker table: an id is in the new table exactly when the detector
    reported it, and it maps to the mean of the four corner points of its
    last report; nothing of the previous table survives, and the other
    fields of the aligner are untouched. *)
Theorem detect_markers_centres
    (self : ArucoAligner.t) (found : Detection.detection)
    (shape : ArucoAligner.image_shape) (marker_ids : list Z) :
  ArucoAligner.image self = Some shape ->
  Detection.ids found = Some marker_ids ->
  marker_ids <> [] ->
  (length marker_ids <= length (Detection.corners found))%nat ->
  exists m,
    Detection.detect_markers self found
      = (inr m, Detection.set_detected_markers self m)
    /\ forall k c,
         m !! k = Some c <->
         Detection.last_center (Detection.corners found) marker_ids k c.
Proof.
  intros Hi Hids Hne Hlen.
  destruct (record_centers_spec (Detection.corners found) marker_ids 0
              (Detection.set_detected_markers self ∅)) as
    (self' & E & Hj & Him & Hh & Hm); [simpl; lia|].
  exists (ArucoAligner.detected_markers self').
  split.
  - unfold Detection.detect_markers. rewrite Hi, Hids.
    destruct marker_ids as [|id rest]; [congruence|].
    rewrite E. f_equal.
    destruct self'. simpl in *. subst. reflexivity.
  - intros k c. rewrite Hm. unfold Detection.last_center. simpl. split.
    + intros [H|[_ H]]; [exact H | now rewrite lookup_empty in H].
    + intros H. left. exact H.
Qed.

Lemma detect_markers_centres_witness :
  exists m,
    Detection.detect_markers Examples.three_markers_aligner
      {| Detection.corners :=
           [[(0, 0); (2, 0); (2, 2); (0, 2)];
            [(10, 10); (14, 10); (14, 14); (10, 14)]]%Q;
         Detection.ids := Some [7; 7]%Z |}
    = (inr m, Detection.set_detected_markers Examples.three_markers_aligner m)
    /\ forall k c,
         m !! k = Some c <->
         Detection.last_center
           [[(0, 0); (2, 0); (2, 2); (0, 2)];
            [(10, 10); (14, 10); (14, 14); (10, 14)]]%Q
           [7; 7]%Z k c.
Proof.
  apply (detect_markers_centres Examples.three_markers_aligner
           {| Detection.corners :=
                [[(0, 0); (2, 0); (2, 2); (0, 2)];
                 [(10, 10); (14, 10); (14, 14); (10, 14)]]%Q;
              Detection.ids := Some [7; 7]%Z |}
           Examples.hd_image [7; 7]%Z).
  - reflexivity.
  - reflexivity.
  - discriminate.
  - simpl. lia.
Defined.

(** ** The homography as state *)

(** X8.  [calculate_homography] changes nothing but [self.homography].  A
    returned matrix is the one stored, and [transform_point] then maps with
    it.  When too few markers match, the aligner is unchanged, so a
    homography of an earlier image stays in use; when four or more match but
    the solver finds no model, the stored homography is cleared and
    [transform_point] raises "Homography not calculated yet". *)
Theorem calculate_homography_stores_result
    (py_int : string -> result Z)
    (findHomography : list point -> list point -> option mat3)
    (self self' : ArucoAligner.t) (r : result mat3) :
  ArucoAligner.calculate_homography py_int findHomography self = (r, self') ->
  ArucoAligner.jig_config self' = ArucoAligner.jig_config self
  /\ ArucoAligner.image self' = ArucoAligner.image self
  /\ ArucoAligner.detected_markers self' = ArucoAligner.detected_markers self
  /\ (forall H, r = inr H ->
        ArucoAligner.homography self' = Some H
        /\ forall p, ArucoAligner.transform_point self' p
                     = inr (Cv2.project H p))
  /\ (forall e, r = inl e -> InsufficientMarkersError e -> self' = self)
  /\ (forall src dst,
        ArucoAligner.correspondences py_int self = inr (src, dst) ->
        (4 <= length src)%nat ->
        findHomography src dst = None ->
        r = inl (ValueError FailedToCalculateHomography)
        /\ ArucoAligner.homography self' = None
        /\ forall p, ArucoAligner.transform_point self' p
                     = inl (ValueError HomographyNotCalculatedYet)).
Proof.
  unfold ArucoAligner.calculate_homography. intros E.
  destruct (ArucoAligner.correspondences py_int self) as [e|[src dst]] eqn:Ec.
  - inversion E; subst.
    split; [reflexivity|]. split; [reflexivity|]. split; [reflexivity|].
    split; [discriminate|]. split; [reflexivity|]. discriminate.
  - destruct (Nat.ltb_spec (length src) 4) as [Hlt|Hge].
    + inversion E; subst.
      split; [reflexivity|]. split; [reflexivity|]. split; [reflexivity|].
      split; [discriminate|]. split; [reflexivity|].
      intros s d Hs Hlen. inversion Hs; subst. lia.
    + destruct (findHomography src dst) as [H|] eqn:Ef; inversion E; subst;
        simpl.
      * split; [reflexivity|]. split; [reflexivity|]. split; [reflexivity|].
        split.
        -- intros H' HH. inversion HH; subst.
           split; [reflexivity | intros p; now apply transform_point_set].
        -- split; [discriminate|].
           intros s d Hs _ Hn. inversion Hs; subst. congruence.
      * split; [reflexivity|]. split; [reflexivity|]. split; [reflexivity|].
        split; [discriminate|]. split.
        -- intros e He [n Hn]. inversion He; subst. discriminate.
        -- intros s d _ _ _. split; [reflexivity|].
           split; [reflexivity | intros p; now apply transform_point_unset].
Qed.

Lemma calculate_homography_stores_result_witness :
  ArucoAligner.jig_config
    (ArucoAligner.set_homography Examples.four_markers_aligner
       (Some Examples.scale_3_5))
    = ArucoAligner.jig_config Examples.four_markers_aligner
  /\ ArucoAligner.image
       (ArucoAligner.set_homography Examples.four_markers_aligner
          (Some Examples.scale_3_5))
     = ArucoAligner.image Examples.four_markers_aligner.
Proof.
  pose proof (calculate_homography_stores_result ArucoAligner.int_of_decimal
                Examples.solver_scale Examples.four_markers_aligner
                (ArucoAligner.set_homography Examples.four_markers_aligner
                   (Some Examples.scale_3_5))
                (inr Examples.scale_3_5)) as H.
  assert (E : ArucoAligner.calculate_homography ArucoAligner.int_of_decimal
                Examples.solver_scale Examples.four_markers_aligner
              = (inr Examples.scale_3_5,
                 ArucoAligner.set_homography Examples.four_markers_aligner
                   (Some Examples.scale_3_5)))
    by (vm_compute; reflexivity).
  destruct (H E) as (H1 & H2 & _). split; assumption.
Defined.

(** ** Alignment data *)

Section AlignmentFacts.
Import ArucoAligner Detection.
Local Open Scope Q_scope.

Lemma affine_denom (H : mat3) (p : point) :
  affine H -> denom H p == m22 H.
Proof.
  intros (H0 & H1 & _). unfold denom. rewrite H0, H1. ring.
Qed.

Lemma affine_project (H : mat3) (p : point) :
  affine H ->
  point_eq (Cv2.project H p)
    ((m00 H * fst p + m01 H * snd p + m02 H) / m22 H,
     (m10 H * fst p + m11 H * snd p + m12 H) / m22 H).
Proof.
  intros Ha. pose proof (affine_denom H p Ha) as Hd.
  destruct Ha as (_ & _ & Hnz).
  rewrite project_finite by (rewrite Hd; exact Hnz).
  unfold point_eq. simpl. rewrite Hd. split; reflexivity.
Qed.

Lemma alignment_returns (self : t) (H : mat3) (shape : image_shape)
    (x y w h : Q) :
  homography self = Some H ->
  image self = Some shape ->
  calculate_alignment_for_design self (x, y, w, h) =
    inr {| design_rect_mm := (x, y, w, h);
           center_px :=
             Numpy.mean_axis0
               [Cv2.project H (x, y); Cv2.project H (x + w, y);
                Cv2.project H (x + w, y + h); Cv2.project H (x, y + h)];
           corners_px :=
             [Cv2.project H (x, y); Cv2.project H (x + w, y);
              Cv2.project H (x + w, y + h); Cv2.project H (x, y + h)];
           angle_deg :=
             Numpy.degrees
               (Numpy.arctan2
                  (Q2R (snd (Cv2.project H (x + w, y))
                        - snd (Cv2.project H (x, y))))
                  (Q2R (fst (Cv2.project H (x + w, y))
                        - fst (Cv2.project H (x, y)))));
           size_px :=
             (Numpy.linalg_norm
                (Numpy.sub (Cv2.project H (x + w, y)) (Cv2.project H (x, y))),
              Numpy.linalg_norm
                (Numpy.sub (Cv2.project H (x, y + h))
                   (Cv2.project H (x, y))));
           image_size := (cols shape, rows shape) |}.
Proof.
  intros Eh Ei. unfold calculate_alignment_for_design.
  rewrite (transform_rect_set self H x y w h Eh), Ei. reflexivity.
Qed.

End AlignmentFacts.

(** X9.  Under a homography without perspective (last row 0, 0, h33 with
    h33 not zero) the [center_px] of the alignment data, the mean of the four
    transformed corners, is the image of the rectangle's centre
    (x + w/2, y + h/2) under [transform_point]. *)
Theorem center_px_is_transformed_centre
    (self : ArucoAligner.t) (H : mat3) (shape : ArucoAligner.image_shape)
    (x y w h : Q) :
  ArucoAligner.homography self = Some H ->
  ArucoAligner.image self = Some shape ->
  Detection.affine H ->
  exists data c,
    ArucoAligner.calculate_alignment_for_design self (x, y, w, h) = inr data
    /\ ArucoAligner.transform_point self (x + w / 2, y + h / 2)%Q = inr c
    /\ point_eq (ArucoAligner.center_px data) c.
Proof.
  intros Eh Ei Ha.
  eexists. eexists.
  split; [apply (alignment_returns self H shape x y w h Eh Ei)|].
  split; [apply (transform_point_set self H _ Eh)|].
  simpl ArucoAligner.center_px.
  pose proof (affine_project H (x, y) Ha) as [A1 B1].
  pose proof (affine_project H (x + w, y)%Q Ha) as [A2 B2].
  pose proof (affine_project H (x + w, y + h)%Q Ha) as [A3 B3].
  pose proof (affine_project H (x, y + h)%Q Ha) as [A4 B4].
  pose proof (affine_project H (x + w / 2, y + h / 2)%Q Ha) as [A5 B5].
  destruct Ha as (_ & _ & Hnz).
  unfold point_eq, Numpy.mean_axis0. simpl in *.
  rewrite A1, A2, A3, A4, A5, B1, B2, B3, B4, B5.
  split; field; exact Hnz.
Qed.

Lemma center_px_is_transformed_centre_witness :
  exists data c,
    ArucoAligner.calculate_alignment_for_design
      (Examples.with_homography Examples.quarter_turn) (75, 75, 50, 50)%Q
      = inr data
    /\ ArucoAligner.transform_point
         (Examples.with_homography Examples.quarter_turn)
         (75 + 50 / 2, 75 + 50 / 2)%Q = inr c
    /\ point_eq (ArucoAligner.center_px data) c.
Proof.
  apply (center_px_is_transformed_centre
           (Examples.with_homography Examples.quarter_turn)
           Examples.quarter_turn Examples.hd_image 75 75 50 50)%Q.
  - reflexivity.
  - reflexivity.
  - repeat split; vm_compute; discriminate.
Defined.

Section ScalingFacts.
Import ArucoAligner Detection.
Local Open Scope Q_scope.

Lemma scaling_affine (sx sy tx ty : Q) : affine (scaling sx sy tx ty).
Proof. repeat split; simpl; try reflexivity. discriminate. Qed.

Lemma scaling_project (sx sy tx ty : Q) (p : point) :
  point_eq (Cv2.project (scaling sx sy tx ty) p)
    (sx * fst p + tx, sy * snd p + ty).
Proof.
  destruct (affine_project (scaling sx sy tx ty) p (scaling_affine _ _ _ _))
    as [A B].
  unfold point_eq in *. simpl in *. rewrite A, B. split; field.
Qed.

Lemma arctan2_positive_x_axis (x : R) :
  (0 < x)%R -> Numpy.arctan2 0 x = 0%R.
Proof.
  intros Hx. unfold Numpy.arctan2.
  destruct (Rlt_dec 0 x); [|lra].
  replace (0 / x)%R with 0%R by (field; lra). apply atan_0.
Qed.

Lemma norm_along_x (v : point) (a : Q) :
  fst v == a -> snd v == 0 -> 0 <= a ->
  Numpy.linalg_norm v = Q2R a.
Proof.
  intros Hx Hy Ha. unfold Numpy.linalg_norm.
  assert (E : fst v * fst v + snd v * snd v == a * a)
    by (rewrite Hx, Hy; ring).
  rewrite (Qreals.Qeq_eqR _ _ E), Qreals.Q2R_mult.
  apply sqrt_square. apply Qreals.Qle_Rle in Ha.
  now rewrite RMicromega.Q2R_0 in Ha.
Qed.

Lemma norm_along_y (v : point) (b : Q) :
  fst v == 0 -> snd v == b ->
  Numpy.linalg_norm v = Rabs (Q2R b).
Proof.
  intros Hx Hy. unfold Numpy.linalg_norm.
  assert (E : fst v * fst v + snd v * snd v == b * b)
    by (rewrite Hx, Hy; ring).
  rewrite (Qreals.Qeq_eqR _ _ E), Qreals.Q2R_mult.
  apply sqrt_Rsqr_abs.
Qed.

End ScalingFacts.

(** X10.  Under a homography that only scales the axes (by sx > 0 and any sy)
    and shifts, a rectangle of positive width gets [angle_deg] 0 and
    [size_px] (sx * w, |sy * h|): a vertical flip of the image (sy < 0) shows
    neither in the angle nor in the size. *)
Theorem alignment_under_scaling
    (self : ArucoAligner.t) (shape : ArucoAligner.image_shape)
    (sx sy tx ty x y w h : Q) :
  ArucoAligner.homography self = Some (Detection.scaling sx sy tx ty) ->
  ArucoAligner.image self = Some shape ->
  (0 < sx)%Q -> (0 < w)%Q ->
  exists data,
    ArucoAligner.calculate_alignment_for_design self (x, y, w, h) = inr data
    /\ ArucoAligner.angle_deg data = 0%R
    /\ ArucoAligner.size_px data = (Q2R (sx * w), Rabs (Q2R (sy * h))).
Proof.
  intros Eh Ei Hsx Hw.
  eexists.
  split; [apply (alignment_returns self _ shape x y w h Eh Ei)|].
  destruct (scaling_project sx sy tx ty (x, y)) as [A1 B1].
  destruct (scaling_project sx sy tx ty (x + w, y)%Q) as [A2 B2].
  destruct (scaling_project sx sy tx ty (x, y + h)%Q) as [A4 B4].
  simpl in A1, B1, A2, B2, A4, B4.
  assert (Hpos : (0 < sx * w)%Q).
  { apply Qmult_lt_0_compat; assumption. }
  split.
  - cbn [ArucoAligner.angle_deg].
    assert (Ex : (fst (Cv2.project (Detection.scaling sx sy tx ty) (x + w, y))
                  - fst (Cv2.project (Detection.scaling sx sy tx ty) (x, y))
                  == sx * w)%Q) by (rewrite A1, A2; ring).
    assert (Ey : (snd (Cv2.project (Detection.scaling sx sy tx ty) (x + w, y))
                  - snd (Cv2.project (Detection.scaling sx sy tx ty) (x, y))
                  == 0)%Q) by (rewrite B1, B2; ring).
    rewrite (Qreals.Qeq_eqR _ _ Ex), (Qreals.Qeq_eqR _ _ Ey), RMicromega.Q2R_0.
    rewrite arctan2_positive_x_axis.
    + unfold Numpy.degrees. field. apply Rgt_not_eq, PI_RGT_0.
    + apply Qreals.Qlt_Rlt in Hpos. now rewrite RMicromega.Q2R_0 in Hpos.
  - cbn [ArucoAligner.size_px]. f_equal.
    + apply norm_along_x; simpl.
      * rewrite A1, A2. ring.
      * rewrite B1, B2. ring.
      * now apply Qlt_le_weak.
    + apply norm_along_y; simpl.
      * rewrite A1, A4. ring.
      * rewrite B1, B4. ring.
Qed.

Lemma alignment_under_scaling_witness :
  exists data,
    ArucoAligner.calculate_alignment_for_design
      (Examples.with_homography (Detection.scaling 1 1 25 25))
      (75, 75, 50, 50)%Q = inr data
    /\ ArucoAligner.angle_deg data = 0%R
    /\ ArucoAligner.size_px data = (Q2R (1 * 50), Rabs (Q2R (1 * 50))).
Proof.
  apply (alignment_under_scaling
           (Examples.with_homography (Detection.scaling 1 1 25 25))
           Examples.hd_image 1 1 25 25 75 75 50 50)%Q.
  - reflexivity.
  - reflexivity.
  - reflexivity.
  - reflexivity.
Defined.

(** X11.  The alignment data need the loaded image for [image_size]: with a
    homography set but no image, [calculate_alignment_for_design] fails on
    the attribute access after the corners were computed. *)
Theorem alignment_needs_image
    (self : ArucoAligner.t) (H : mat3) (rect_mm : rect) :
  ArucoAligner.homography self = Some H ->
  ArucoAligner.image self = None ->
  ArucoAligner.calculate_alignment_for_design self rect_mm
    = inl AttributeError
  /\ exists corners,
       ArucoAligner.transform_rect self rect_mm = inr corners.
Proof.
  intros Eh Ei. destruct rect_mm as [[[x y] w] h].
  split.
  - unfold ArucoAligner.calculate_alignment_for_design.
    rewrite (transform_rect_set self H x y w h Eh), Ei. reflexivity.
  - eexists. apply (transform_rect_set self H x y w h Eh).
Qed.

Lemma alignment_needs_image_witness :
  ArucoAligner.calculate_alignment_for_design
    (Detection.set_image (Examples.with_homography Examples.scale_3_5) None)
    (75, 75, 50, 50)%Q
    = inl AttributeError
  /\ exists corners,
       ArucoAligner.transform_rect
         (Detection.set_image (Examples.with_homography Examples.scale_3_5)
            None)
         (75, 75, 50, 50)%Q = inr corners.
Proof.
  apply (alignment_needs_image
           (Detection.set_image (Examples.with_homography Examples.scale_3_5)
              None)
           Examples.scale_3_5 (75, 75, 50, 50)%Q).
  - reflexivity.
  - reflexivity.
Defined.

(** ** The whole run *)

Section ProcessFacts.
Import ArucoAligner Detection.
Variable snapshot : string -> option (image_shape * detection).
Variable py_int : string -> result Z.
Variable findHomography : list point -> list point -> option mat3.


Lemma record_centers_fields (cs : list (list point)) :
  forall l i s,
    jig_config (snd (record_centers cs i l s)) = jig_config s
    /\ image (snd (record_centers cs i l s)) = image s
    /\ homography (snd (record_centers cs i l s)) = homography s.
Proof.
  induction l as [|id rest IH]; intros i s; simpl; [auto|].
  destruct (Numpy.getitem cs i) as [e|pts]; simpl; [auto|].
  exact (IH (S i)
           (set_detected_markers s
              (<[id := Numpy.mean_axis0 pts]> (detected_markers s)))).
Qed.




End ProcessFacts.



(** X13.  Alignment data returned by [process] belong to the snapshot of this
    call: [image_size] is the shape of the image just read, [corners_px] are
    the rectangle's corners under the homography just computed, which is the
    one left in the aligner, and that homography was solved from at least
    four correspondences. *)
Theorem process_returns_current_alignment
    (snapshot : string ->
                option (ArucoAligner.image_shape * Detection.detection))
    (py_int : string -> result Z)
    (findHomography : list point -> list point -> option mat3)
    (self self' : ArucoAligner.t) (image_path : string)
    (rect_mm : rect) (data : ArucoAligner.alignment) :
  Detection.process snapshot py_int findHomography self image_path
    (Some rect_mm) = (inr (Some data), self') ->
  exists shape found H src dst,
    snapshot image_path = Some (shape, found)
    /\ ArucoAligner.image self' = Some shape
    /\ ArucoAligner.homography self' = Some H
    /\ ArucoAligner.correspondences py_int self' = inr (src, dst)
    /\ (4 <= length src)%nat
    /\ findHomography src dst = Some H
    /\ ArucoAligner.image_size data
       = (ArucoAligner.cols shape, ArucoAligner.rows shape)
    /\ ArucoAligner.design_rect_mm data = rect_mm
    /\ ArucoAligner.transform_rect self' rect_mm
       = inr (ArucoAligner.corners_px data).
Proof.
  unfold Detection.process, Detection.load_image. intros E.
  destruct (snapshot image_path) as [[shape found]|]; [|discriminate].
  destruct (Detection.detect_markers (Detection.set_image self (Some shape))
              found) as [[e|m] t1] eqn:Ed; [discriminate|].
  assert (Hi1 : ArucoAligner.image t1 = Some shape).
  { unfold Detection.detect_markers in Ed. simpl in Ed.
    destruct (Detection.ids found) as [[|id rest]|]; try discriminate.
    destruct (record_centers_fields (Detection.corners found) (id :: rest) 0
                (Detection.set_detected_markers
                   (Detection.set_image self (Some shape)) ∅))
      as (_ & I & _).
    destruct (Detection.record_centers (Detection.corners found) 0
                (id :: rest) _) as [[e|u] t]; [discriminate|].
    inversion Ed; subst. exact I. }
  destruct (ArucoAligner.calculate_homography py_int findHomography t1)
    as [[e|H] t2] eqn:Eh; [discriminate|].
  unfold ArucoAligner.calculate_homography in Eh.
  destruct (ArucoAligner.correspondences py_int t1) as [e|[src dst]] eqn:Ec;
    [discriminate|].
  destruct (Nat.ltb_spec (length src) 4) as [Hlt|Hge]; [discriminate|].
  destruct (findHomography src dst) as [H'|] eqn:Ef; [|discriminate].
  inversion Eh; subst H' t2. clear Eh.
  destruct rect_mm as [[[x y] w] h].
  rewrite (alignment_returns (ArucoAligner.set_homography t1 (Some H)) H shape
             x y w h eq_refl Hi1) in E.
  inversion E; subst data self'. clear E. simpl.
  exists shape, found, H, src, dst.
  split; [reflexivity|]. split; [exact Hi1|]. split; [reflexivity|].
  split; [exact Ec|]. split; [exact Hge|]. split; [exact Ef|].
  split; [reflexivity|]. split; [reflexivity|].
  apply (transform_rect_set (ArucoAligner.set_homography t1 (Some H)) H
           x y w h eq_refl).
Qed.

Lemma process_returns_current_alignment_witness :
  exists data self',
    Detection.process MoreExamples.board_snapshot
      ArucoAligner.int_of_decimal Examples.solver_scale
      Examples.fresh_aligner "shot.jpg" (Some (75, 75, 50, 50)%Q)
    = (inr (Some data), self')
    /\ exists shape found H src dst,
         MoreExamples.board_snapshot "shot.jpg" = Some (shape, found)
         /\ ArucoAligner.image self' = Some shape
         /\ ArucoAligner.homography self' = Some H
         /\ ArucoAligner.correspondences ArucoAligner.int_of_decimal self'
            = inr (src, dst)
         /\ (4 <= length src)%nat
         /\ Examples.solver_scale src dst = Some H
         /\ ArucoAligner.image_size data
            = (ArucoAligner.cols shape, ArucoAligner.rows shape)
         /\ ArucoAligner.design_rect_mm data = (75, 75, 50, 50)%Q
         /\ ArucoAligner.transform_rect self' (75, 75, 50, 50)%Q
            = inr (ArucoAligner.corners_px data).
Proof.
  eexists. eexists.
  split.
  - vm_compute. reflexivity.
  - eapply (process_returns_current_alignment MoreExamples.board_snapshot
              ArucoAligner.int_of_decimal Examples.solver_scale
              Examples.fresh_aligner _ "shot.jpg" (75, 75, 50, 50)%Q).
    vm_compute. reflexivity.
Defined.

(** ** Placing a design by mouse *)

Section PlacementFacts.
Import DesignPlacer Placement.
Local Open Scope Q_scope.


End PlacementFacts.

Section LoopFacts.
Import DesignPlacer Placement.
Local Open Scope Q_scope.

Lemma callbacks_keep_selection (evs : list mouse_event) (pos : Z * Z) :
  truthy (fold_left mouse_callback evs (Some pos)) = true.
Proof.
  revert pos. induction evs as [|ev evs IH]; intros pos; simpl; [reflexivity|].
  unfold mouse_callback at 2. destruct (event ev =? EVENT_LBUTTONDOWN)%Z;
    apply IH.
Qed.

Lemma callbacks_without_click (evs : list mouse_event)
    (sel : option (Z * Z)) :
  forallb (fun ev => negb (is_click ev)) evs = true ->
  fold_left mouse_callback evs sel = sel.
Proof.
  revert sel. induction evs as [|ev evs IH]; intros sel; simpl; [reflexivity|].
  intros Hc. apply andb_true_iff in Hc as [Hev Hrest].
  unfold mouse_callback at 2. unfold is_click in Hev.
  destruct (event ev =? EVENT_LBUTTONDOWN)%Z; [discriminate|].
  now apply IH.
Qed.

Lemma callbacks_with_click (evs : list mouse_event)
    (sel : option (Z * Z)) :
  existsb is_click evs = true ->
  truthy (fold_left mouse_callback evs sel) = true.
Proof.
  revert sel. induction evs as [|ev evs IH]; intros sel; simpl;
    [discriminate|].
  intros Hc. unfold mouse_callback at 2. unfold is_click in Hc at 1.
  destruct (event ev =? EVENT_LBUTTONDOWN)%Z.
  - apply callbacks_keep_selection.
  - now apply IH.
Qed.





End LoopFacts.

(** X14.  As long as no mouse button went down, the placement loop returns
    no rectangle and raises nothing: ENTER is ignored, and the only way out
    is ESC, which returns [None]. *)
Theorem placement_without_click
    (self : DesignPlacer.t) (design_size_mm : Q * Q)
    (ticks : list Placement.tick) :
  (forall t, In t ticks ->
     forallb (fun ev => negb (Placement.is_click ev)) (Placement.mouse t)
       = true) ->
  Placement.place_design_interactive self design_size_mm ticks
  = if existsb Placement.is_esc ticks
    then Placement.Returned None
    else Placement.Running.
Proof.
  unfold Placement.place_design_interactive.
  induction ticks as [|t rest IH]; intros Hno; [reflexivity|].
  simpl. rewrite (callbacks_without_click _ None)
    by (apply Hno; now left).
  unfold Placement.is_esc at 1.
  destruct (Z.land (Placement.key_code t) 255 =? 27)%Z; [reflexivity|].
  simpl. rewrite andb_false_r.
  apply IH. intros t' Hin. apply Hno. now right.
Qed.

Lemma placement_without_click_witness :
  Placement.place_design_interactive (Examples.placer Examples.scale_3_5)
    (50, 50)%Q
    [{| Placement.mouse := []; Placement.key_code := 13 |};
     {| Placement.mouse := []; Placement.key_code := -1 |}]
  = if existsb Placement.is_esc
         [{| Placement.mouse := []; Placement.key_code := 13 |};
          {| Placement.mouse := []; Placement.key_code := -1 |}]
    then Placement.Returned None
    else Placement.Running.
Proof.
  apply (placement_without_click (Examples.placer Examples.scale_3_5)
           (50, 50)%Q).
  intros t [<-|[<-|[]]]; reflexivity.
Defined.


(** X16.  If the first button press and ENTER arrive in the same turn (no
    ESC and no click before), the loop reads [design_rect_mm] before it was
    ever assigned and ends in an UnboundLocalError instead of a rectangle. *)
Theorem placement_click_with_enter_unbound
    (self : DesignPlacer.t) (design_size_mm : Q * Q)
    (before : list Placement.tick) (t : Placement.tick)
    (rest : list Placement.tick) :
  (forall t', In t' before ->
     forallb (fun ev => negb (Placement.is_click ev)) (Placement.mouse t')
       = true) ->
  existsb Placement.is_esc before = false ->
  existsb Placement.is_click (Placement.mouse t) = true ->
  Placement.is_enter t = true ->
  Placement.place_design_interactive self design_size_mm
    (before ++ t :: rest)
  = Placement.Raised UnboundLocalError.
Proof.
  unfold Placement.place_design_interactive.
  induction before as [|t0 before IH]; intros Hno Hesc Hclick Henter.
  - simpl. unfold Placement.is_enter in Henter. rewrite Z.eqb_eq in Henter.
    rewrite Henter. simpl.
    now rewrite (callbacks_with_click _ None Hclick).
  - simpl in Hesc. apply orb_false_elim in Hesc as [Hesc0 Hesc].
    simpl. rewrite (callbacks_without_click _ None)
      by (apply Hno; now left).
    unfold Placement.is_esc in Hesc0. rewrite Hesc0.
    simpl. rewrite andb_false_r.
    apply IH; auto. intros t' Hin. apply Hno. now right.
Qed.

Lemma placement_click_with_enter_unbound_witness :
  Placement.place_design_interactive (Examples.placer Examples.scale_3_5)
    (50, 50)%Q ([] ++ Placement.click_tick 350 350 13 :: [])
  = Placement.Raised UnboundLocalError.
Proof.
  apply (placement_click_with_enter_unbound
           (Examples.placer Examples.scale_3_5) (50, 50)%Q []
           (Placement.click_tick 350 350 13) []).
  - intros t' [].
  - reflexivity.
  - reflexivity.
  - reflexivity.
Defined.


(** ** Designs: where they come from and how they leave *)

Section DesignFacts.
Import DesignWarper DesignSources.
Local Open Scope Q_scope.
Variable inter_linear : image -> Z -> Z -> list Z.
Variable bgr2rgb : image -> list Z.
Variable getTextSize : string -> Q -> Z -> (Z * Z) * Z.
Variable putText : image -> string -> Z * Z -> Q -> Z -> result (list Z).

Lemma int_below_one (q : Q) : q < 1 -> (int q <= 0)%Z.
Proof.
  destruct q as [n d]. unfold Qlt, int. simpl. intros Hlt.
  destruct (Z_lt_le_dec n 0) as [Hn|Hn].
  - apply Z.quot_le_upper_bound; lia.
  - rewrite Z.quot_small; lia.
Qed.

Lemma cv2_resize_empty_target w src pw ph :
  (pw <= 0)%Z \/ (ph <= 0)%Z ->
  cv2_resize inter_linear w src (pw, ph) = (raise Cv2Error, w).
Proof.
  intros Hs. unfold cv2_resize.
  destruct (arrays w !! src) as [img|]; [|reflexivity].
  replace ((height img <=? 0)%Z || (width img <=? 0)%Z
           || (pw <=? 0)%Z || (ph <=? 0)%Z) with true; [reflexivity|].
  symmetry. destruct Hs as [Hs|Hs]; apply Z.leb_le in Hs; rewrite Hs;
    rewrite ?orb_true_r; reflexivity.
Qed.


End DesignFacts.


(** X18.  [load_design] fails in two ways that leave different states.  An
    .svg path is refused before anything is touched: the design loaded
    before stays.  A file OpenCV cannot read has already overwritten
    [self.design_image] with [None] when the error is raised: the earlier
    design is gone and every export afterwards raises "No design loaded".
    Neither failure changes the store or writes a file. *)
Theorem load_design_failure_states
    (path_suffix : string -> string)
    (imread_unchanged : string -> option DesignWarper.image)
    (self self' : DesignWarper.t) (design_path : string) (e : error)
    (w w' : DesignWarper.world) :
  DesignSources.load_design path_suffix imread_unchanged self design_path w
    = (inl e, self', w') ->
  w' = w
  /\ ((e = NotImplementedError /\ self' = self
       /\ DesignWarper.lower (path_suffix design_path) = ".svg"%string)
      \/ (e = CouldNotLoadDesign design_path
          /\ DesignWarper.design_image self' = None
          /\ DesignWarper.alignment_data self'
             = DesignWarper.alignment_data self
          /\ forall inter_linear bgr2rgb out fmt,
               DesignWarper.export_for_lightburn inter_linear bgr2rgb self'
                 out fmt w'
               = (raise (ValueError NoDesignLoaded), self', w'))).
Proof.
  unfold DesignSources.load_design. intros E.
  destruct (String.eqb_spec (DesignWarper.lower (path_suffix design_path))
              ".svg") as [Hs|Hs].
  - inversion E; subst. split; [reflexivity|]. left. auto.
  - destruct (imread_unchanged design_path) as [img|].
    + unfold DesignWarper.alloc in E. discriminate.
    + inversion E; subst. split; [reflexivity|]. right.
      split; [reflexivity|]. split; [reflexivity|]. split; [reflexivity|].
      intros. reflexivity.
Qed.

(** X19.  A design rectangle that comes to less than one pixel in width or in
    height at the warper's resolution cannot be exported: whatever the
    format, supported or not, the resize fails with OpenCV's error, no file
    is written and no array is allocated. *)
Theorem export_below_one_pixel
    (inter_linear : DesignWarper.image -> Z -> Z -> list Z)
    (bgr2rgb : DesignWarper.image -> list Z)
    (self : DesignWarper.t) (path fmt : string) (l : DesignWarper.loc)
    (x y width_mm height_mm : Q) (w : DesignWarper.world) :
  DesignWarper.design_image self = Some l ->
  ArucoAligner.design_rect_mm (DesignWarper.alignment_data self)
    = (x, y, width_mm, height_mm) ->
  (width_mm * DesignWarper.px_per_mm self < 1)%Q
  \/ (height_mm * DesignWarper.px_per_mm self < 1)%Q ->
  DesignWarper.export_for_lightburn inter_linear bgr2rgb self path fmt w
  = (raise Cv2Error, self, w).
Proof.
  intros Hd Hrect Hsmall. unfold DesignWarper.export_for_lightburn.
  rewrite Hd, Hrect.
  rewrite cv2_resize_empty_target; [reflexivity|].
  destruct Hsmall as [Hs|Hs]; [left|right]; now apply int_below_one.
Qed.

(** X20.  With a format that is neither "png" nor "svg" in any spelling of
    upper and lower case, the export never writes a file.  The format is
    looked at only after the resize: if a design is loaded and can be
    resized, the resized raster is allocated first and the error then names
    the format as it was given; otherwise the error is the missing design's
    or OpenCV's and the store is as before. *)
Theorem export_unsupported_format
    (inter_linear : DesignWarper.image -> Z -> Z -> list Z)
    (bgr2rgb : DesignWarper.image -> list Z)
    (self self' : DesignWarper.t) (path fmt : string)
    (r : result string) (w w' : DesignWarper.world) :
  DesignWarper.lower fmt <> "png"%string ->
  DesignWarper.lower fmt <> "svg"%string ->
  DesignWarper.export_for_lightburn inter_linear bgr2rgb self path fmt w
    = (r, self', w') ->
  DesignWarper.disk w' = DesignWarper.disk w
  /\ exists e,
       r = inl e
       /\ ((e = ValueError (UnsupportedFormat fmt)
            /\ exists resized,
                 DesignWarper.arrays w' = DesignWarper.arrays w ++ [resized])
           \/ (w' = w
               /\ (e = ValueError NoDesignLoaded \/ e = Cv2Error))).
Proof.
  intros Hpng Hsvg E. unfold DesignWarper.export_for_lightburn in E.
  destruct (DesignWarper.design_image self) as [design|].
  2:{ inversion E; subst. split; [reflexivity|]. eexists.
      split; [reflexivity|]. right. auto. }
  destruct (ArucoAligner.design_rect_mm (DesignWarper.alignment_data self))
    as [[[x y] wmm] hmm].
  destruct (DesignWarper.cv2_resize inter_linear w design _)
    as [[e|resized] w1] eqn:Er.
  - inversion E; subst.
    unfold DesignWarper.cv2_resize in Er.
    destruct (DesignWarper.arrays w !! design) as [img|].
    + destruct (_ || _ || _ || _) in Er.
      * inversion Er; subst. split; [reflexivity|]. eexists.
        split; [reflexivity|]. right. auto.
      * unfold DesignWarper.alloc in Er. discriminate.
    + inversion Er; subst. split; [reflexivity|]. eexists.
      split; [reflexivity|]. right. auto.
  - apply cv2_resize_returns in Er
      as (img & out1 & _ & _ & _ & _ & _ & _ & _ & Ha & Hd).
    destruct (String.eqb_spec (DesignWarper.lower fmt) "png");
      [contradiction|].
    destruct (String.eqb_spec (DesignWarper.lower fmt) "svg");
      [contradiction|].
    inversion E; subst. split; [exact Hd|]. eexists.
    split; [reflexivity|]. left. split; [reflexivity|].
    exists out1. exact Ha.
Qed.



Lemma load_design_failure_states_witness :
  MoreExamples.empty_world = MoreExamples.empty_world
  /\ ((CouldNotLoadDesign "gone.png" = NotImplementedError
       /\ DesignSources.clear_design_image Examples.test_warper
          = Examples.test_warper
       /\ DesignWarper.lower (MoreExamples.suffix_of "gone.png")
          = ".svg"%string)
      \/ (CouldNotLoadDesign "gone.png" = CouldNotLoadDesign "gone.png"
          /\ DesignWarper.design_image
               (DesignSources.clear_design_image Examples.test_warper) = None
          /\ DesignWarper.alignment_data
               (DesignSources.clear_design_image Examples.test_warper)
             = DesignWarper.alignment_data Examples.test_warper
          /\ forall inter_linear bgr2rgb out fmt,
               DesignWarper.export_for_lightburn inter_linear bgr2rgb
                 (DesignSources.clear_design_image Examples.test_warper)
                 out fmt MoreExamples.empty_world
               = (raise (ValueError NoDesignLoaded),
                  DesignSources.clear_design_image Examples.test_warper,
                  MoreExamples.empty_world))).
Proof.
  apply (load_design_failure_states MoreExamples.suffix_of
           MoreExamples.read_scan Examples.test_warper
           (DesignSources.clear_design_image Examples.test_warper)
           "gone.png" (CouldNotLoadDesign "gone.png")
           MoreExamples.empty_world MoreExamples.empty_world).
  reflexivity.
Defined.

Lemma export_below_one_pixel_witness :
  DesignWarper.export_for_lightburn Examples.blank_resample
    Examples.blank_swap MoreExamples.hairline_warper "out.gif" "gif"
    Examples.test_world
  = (raise Cv2Error, MoreExamples.hairline_warper, Examples.test_world).
Proof.
  apply (export_below_one_pixel Examples.blank_resample Examples.blank_swap
           MoreExamples.hairline_warper "out.gif" "gif" 0%nat
           0 0 (1 # 100) 5 Examples.test_world)%Q.
  - reflexivity.
  - reflexivity.
  - left. vm_compute. reflexivity.
Defined.

Lemma export_unsupported_format_witness :
  exists r self' w',
    DesignWarper.export_for_lightburn Examples.blank_resample
      Examples.blank_swap Examples.test_warper "out.jpg" "JPG"
      Examples.test_world = (r, self', w')
    /\ DesignWarper.disk w' = DesignWarper.disk Examples.test_world
    /\ exists e,
         r = inl e
         /\ ((e = ValueError (UnsupportedFormat "JPG")
              /\ exists resized,
                   DesignWarper.arrays w'
                   = DesignWarper.arrays Examples.test_world ++ [resized])
             \/ (w' = Examples.test_world
                 /\ (e = ValueError NoDesignLoaded \/ e = Cv2Error))).
Proof.
  eexists. eexists. eexists. split.
  - vm_compute. reflexivity.
  - eapply (export_unsupported_format Examples.blank_resample
             Examples.blank_swap Examples.test_warper _ "out.jpg" "JPG" _
             Examples.test_world _).
    + vm_compute. discriminate.
    + vm_compute. discriminate.
    + vm_compute. reflexivity.
Defined.


(** ** Status text *)

Section StatusFacts.
Import LightBurnController.
Local Open Scope N_scope.

Lemma lstrip_head (s : str) (c : N) :
  head (lstrip s) = Some c -> isspace c = false.
Proof.
  induction s as [|a s IH]; simpl; [discriminate|].
  destruct (isspace a) eqn:Ea; [exact IH|].
  simpl. intros [= <-]. exact Ea.
Qed.

Lemma lstrip_fixed (s : str) :
  (forall c, head s = Some c -> isspace c = false) -> lstrip s = s.
Proof.
  destruct s as [|a s]; simpl; [reflexivity|].
  intros Hh. now rewrite (Hh a eq_refl).
Qed.

Lemma lstrip_suffix (s : str) : exists pre, s = pre ++ lstrip s.
Proof.
  induction s as [|a s [pre IH]]; simpl.
  - now exists [].
  - destruct (isspace a).
    + exists (a :: pre). simpl. now f_equal.
    + now exists [].
Qed.

Lemma head_rev_last {A} (l : list A) : head (rev l) = last l.
Proof.
  induction l as [|a l IH]; [reflexivity|].
  simpl rev. destruct l as [|b l]; [reflexivity|].
  rewrite last_cons_cons. rewrite <- IH.
  simpl. destruct (rev l ++ [b]) eqn:E; [|reflexivity].
  destruct (rev l); discriminate.
Qed.

Lemma last_rev_head {A} (l : list A) : last (rev l) = head l.
Proof.
  rewrite <- head_rev_last. now rewrite rev_involutive.
Qed.

Lemma last_app_nonempty {A} (l1 l2 : list A) :
  l2 <> [] -> last (l1 ++ l2) = last l2.
Proof.
  intros Hn. destruct l2 as [|b l2]; [contradiction|].
  clear Hn. revert b. induction l2 as [|c l2 IH] using rev_ind; intros b.
  - now rewrite last_snoc.
  - rewrite app_comm_cons, app_assoc, !last_snoc. reflexivity.
Qed.

Lemma strip_ends (s : str) :
  (forall c, head (strip s) = Some c -> isspace c = false)
  /\ (forall c, last (strip s) = Some c -> isspace c = false).
Proof.
  unfold strip. split; intros c Hc.
  - rewrite head_rev_last in Hc.
    destruct (lstrip_suffix (rev (lstrip s))) as [pre Hpre].
    destruct (lstrip (rev (lstrip s))) as [|b l] eqn:Eb; [discriminate|].
    assert (Hl : last (rev (lstrip s)) = Some c).
    { rewrite Hpre. rewrite last_app_nonempty by discriminate. exact Hc. }
    rewrite last_rev_head in Hl. now apply lstrip_head in Hl.
  - rewrite last_rev_head in Hc. now apply lstrip_head in Hc.
Qed.

Lemma strip_idempotent (s : str) : strip (strip s) = strip s.
Proof.
  destruct (strip_ends s) as [Hh Hl].
  unfold strip at 1.
  rewrite (lstrip_fixed (strip s) Hh).
  rewrite lstrip_fixed.
  - apply rev_involutive.
  - intros c Hc. rewrite head_rev_last in Hc. now apply Hl.
Qed.

End StatusFacts.

(** X22.  A status text handed back by [get_status] is the decoded reply
    datagram trimmed: it neither begins nor ends with a whitespace
    character, and stripping it again changes nothing. *)
Theorem get_status_is_trimmed
    (self : LightBurnController.t) (net net' : LightBurnController.network)
    (text : LightBurnController.str) :
  LightBurnController.get_status self net = (inr (Some text), net') ->
  (exists data reply rest,
     LightBurnController.inbox net = LightBurnController.Reply data :: rest
     /\ LightBurnController.utf8_decode data = Some reply
     /\ text = LightBurnController.strip reply)
  /\ LightBurnController.strip text = text
  /\ (forall c, head text = Some c -> LightBurnController.isspace c = false)
  /\ (forall c, last text = Some c -> LightBurnController.isspace c = false).
Proof.
  unfold LightBurnController.get_status, LightBurnController.send_command,
    LightBurnController.recvfrom, LightBurnController.sendto.
  cbn [LightBurnController.inbox LightBurnController.sent].
  intros E.
  destruct (LightBurnController.inbox net) as [|[data| |] rest] eqn:Ei;
    try discriminate.
  destruct (LightBurnController.utf8_decode data) as [reply|] eqn:Ed;
    [|discriminate].
  injection E as Et _. subst text.
  split; [exists data, reply, rest; auto|].
  split; [apply strip_idempotent|]. apply strip_ends.
Qed.

Lemma get_status_is_trimmed_witness :
  exists text net',
    LightBurnController.get_status LightBurnController.init
      (Examples.pending
         [LightBurnController.Reply
            [Byte.x20; Byte.x4f; Byte.x4b; Byte.x0d; Byte.x0a]])
    = (inr (Some text), net')
    /\ (exists data reply rest,
          LightBurnController.inbox
            (Examples.pending
               [LightBurnController.Reply
                  [Byte.x20; Byte.x4f; Byte.x4b; Byte.x0d; Byte.x0a]])
          = LightBurnController.Reply data :: rest
          /\ LightBurnController.utf8_decode data = Some reply
          /\ text = LightBurnController.strip reply)
    /\ LightBurnController.strip text = text
    /\ (forall c, head text = Some c -> LightBurnController.isspace c = false)
    /\ (forall c, last text = Some c -> LightBurnController.isspace c = false).
Proof.
  eexists. eexists. split.
  - vm_compute. reflexivity.
  - eapply (get_status_is_trimmed LightBurnController.init
              (Examples.pending
                 [LightBurnController.Reply
                    [Byte.x20; Byte.x4f; Byte.x4b; Byte.x0d; Byte.x0a]])).
    vm_compute. reflexivity.
Defined.


